(** * scanpy.external.pl: plotting wrappers for external tools

    A shallow embedding of [src/scanpy/external/pl.py] and the properties
    of its rendering contract.

    The module draws through matplotlib's process-wide pyplot state and
    reads (and, in one function, writes) the caller's annotated-data
    container.  Both live in a [world] that every function threads; an
    exception stops a call and leaves the world as it was when it was
    raised.  Python passes the container by reference, so the functions
    below act on the container held by the world they run in.

    Numbers stored in arrays are carried as rationals: the module never
    computes with them, it only tests their Python type and hands them
    on.  The optional dependency [samalg] is taken to be importable.

    What matplotlib accepts as a colour, a colormap, a marker size or a
    figure size is matplotlib's business: its validation of a scatter
    call and of a figure size is a parameter ([Matplotlib]) of the
    functions that make such calls. *)

From Stdlib Require Import ZArith QArith Lia.
From Stdlib Require OrderedTypeEx.
From stdpp Require Import base option list sorting gmap strings pretty.

Close Scope Q_scope.

(** ** Python values *)

Inductive exn :=
| KeyError (key : string)
| IndexError (msg : string)
| TypeError (msg : string)
| AttributeError (msg : string)
| ValueError (msg : string)
| Chained (e cause : exn).   (* [raise e from cause] *)

Inductive outcome (A : Type) :=
| Ok (a : A)
| Raise (e : exn).
Arguments Ok {A} a.
Arguments Raise {A} e.

(** An entry of a one-dimensional array, of a tuple, or of a column. *)
Inductive elem :=
| EStr (s : string)
| EFloat (q : Q)
| EInt (z : Z).

(** One-dimensional [np.ndarray], by dtype. *)
Inductive ndarray :=
| StrArr (l : list string)
| FloatArr (l : list Q)
| IntArr (l : list Z).

(** Two-dimensional numeric [np.ndarray] of shape [(length rows, ncols)]. *)
Record ndarray2 := { ncols : nat; rows : list (list Q) }.

(** What the colour argument [c] of [sam] can hold besides [None]: a
    string, a scalar, a tuple (a constant colour) or an array.  Python
    lists are outside the declared type [str | np.ndarray | None] and are
    not modelled. *)
Inductive pyval :=
| VStr (s : string)
| VFloat (q : Q)
| VTuple (l : list elem)
| VArr (a : ndarray).

Record DataFrame := { df_columns : list string; df_values : list (list Q) }.

Inductive uns_value :=
| UStr (s : string)
| UFrame (t : DataFrame).

(** ** The annotated-data container *)

Record AnnData := {
  obsm : gmap string ndarray2;   (* embeddings *)
  obs : gmap string ndarray;     (* per-row observation attributes *)
  uns : gmap string uns_value    (* free-form auxiliary mapping *)
}.

(** ** matplotlib objects and the pyplot state *)

Record Axes := { ax_id : nat; ax_figure : nat }.

(** Results of the public functions. *)
Inductive pyobj :=
| PNone
| PFigure (f : nat)
| PAxes (a : Axes)
| PAxesArr (l : list Axes).

Definition kwargs := list (string * pyval).

Inductive save_arg :=
| SaveFlag (b : bool)
| SavePath (p : string).

Record embedding_kwargs := {
  color : option string;
  groups : option elem;
  title : option elem;
  show : bool;
  ax : option Axes;
  legend_loc : option string
}.

(** Calls that leave the module (to the plotting toolkit and to the
    other collaborators), in the order they are made.  A call is
    recorded when it is made, whether or not the callee then raises;
    the creation of a figure or an axes is recorded with the object
    created. *)
Inductive call :=
| Call_convert_annotations (labels : list string)
| Call_figure (f : nat) (figsize : option (Q * Q))
| Call_add_axes (a : Axes)
| Call_scatter (a : Axes) (x y : list Q) (c : option pyval)
    (cmap : option string) (s linewidth : Q) (edgecolor : string) (kw : kwargs)
| Call_colorbar (mappable : nat) (a : Axes) (ticks : option (list Z)) (cbar_ax : Axes)
| Call_set_yticklabels (a : Axes) (labels : list string)
| Call_embedding (basis : string) (color : option string) (groups title : option elem)
    (show : bool) (a : Axes) (legend_loc : option string)
| Call_set_axis_off (a : Axes)
| Call_plot_marker_trajectory (f : nat) (a : Axes)
| Call_savefig_or_show (name : string) (show : bool) (save : option save_arg).

Record pyplot := {
  n_figures : nat;        (* figures created so far; the next figure number *)
  n_axes : nat;           (* axes created so far; the next axes id *)
  gcf : option nat;       (* current figure *)
  gca : option Axes;      (* current axes of the current figure *)
  calls : list call
}.

Record world := { adata : AnnData; plt : pyplot }.

(** matplotlib's validation of the arguments it is handed:
    [figure_error] is what [plt.figure(figsize=...)] raises for a size
    it rejects, [scatter_error] what [Axes.scatter] raises for the
    coordinates, colour, colormap, styling and keyword options it
    rejects (a string that is no colour, a colour array whose size does
    not fit the points, an unknown option, ...). *)
Record Matplotlib := {
  figure_error : Q * Q → option exn;
  scatter_error :
    list Q → list Q → option pyval → option string → Q → Q → string → kwargs →
    option exn
}.

(** ** Computations: state and exceptions *)

Definition M (A : Type) : Type := world → outcome A * world.

Global Instance M_ret : MRet M := λ A a w, (Ok a, w).
Global Instance M_bind : MBind M := λ A B f m w,
  match m w with
  | (Ok a, w') => f a w'
  | (Raise e, w') => (Raise e, w')
  end.

Definition raise {A} (e : exn) : M A := λ w, (Raise e, w).

Definition lift {A} (o : outcome A) : M A := λ w, (o, w).

(** [try: m except: h]: [h] picks the exceptions it handles. *)
Definition try_except {A} (m : M A) (h : exn → option (M A)) : M A := λ w,
  match m w with
  | (Ok a, w') => (Ok a, w')
  | (Raise e, w') => match h e with Some k => k w' | None => (Raise e, w') end
  end.

Definition get_adata : M AnnData := λ w, (Ok (adata w), w).

Definition get_plt : M pyplot := λ w, (Ok (plt w), w).

Definition put_plt (p : pyplot) : M unit := λ w,
  (Ok tt, {| adata := adata w; plt := p |}).

Definition log (c : call) : M unit :=
  p ← get_plt;
  put_plt {| n_figures := n_figures p; n_axes := n_axes p; gcf := gcf p;
             gca := gca p; calls := calls p ++ [c] |}.

(** [adata.uns[key] = v] *)
Definition setitem_uns (key : string) (v : uns_value) : M unit := λ w,
  (Ok tt, {| adata := {| obsm := obsm (adata w); obs := obs (adata w);
                         uns := <[key := v]> (uns (adata w)) |};
             plt := plt w |}).

Fixpoint for_each {A} (l : list A) (body : A → M unit) : M unit :=
  match l with
  | [] => mret tt
  | x :: l' => body x;; for_each l' body
  end.

Fixpoint enumerate_from {A} (i : nat) (l : list A) : list (nat * A) :=
  match l with
  | [] => []
  | x :: l' => (i, x) :: enumerate_from (S i) l'
  end.

Definition enumerate {A} (l : list A) : list (nat * A) := enumerate_from 0 l.

(** ** Container lookups *)

Definition getitem {V} (m : gmap string V) (key : string) : outcome V :=
  match m !! key with
  | Some v => Ok v
  | None => Raise (KeyError key)
  end.

(** ** numpy and pandas operations the module relies on *)

(** numpy's message for an index outside an axis. *)
Definition out_of_bounds (k axis size : nat) : string :=
  "index " +:+ pretty k +:+ " is out of bounds for axis " +:+ pretty axis
  +:+ " with size " +:+ pretty size.

(** [a[:, k]] *)
Definition column (k : nat) (a : ndarray2) : outcome (list Q) :=
  if (k <? ncols a)%nat then Ok (map (λ r, nth k r 0%Q) (rows a))
  else Raise (IndexError (out_of_bounds k 1 (ncols a))).

Definition elems (a : ndarray) : list elem :=
  match a with
  | StrArr l => EStr <$> l
  | FloatArr l => EFloat <$> l
  | IntArr l => EInt <$> l
  end.

(** [c[0]] *)
Definition getitem0 (c : pyval) : outcome elem :=
  match c with
  | VStr "" => Raise (IndexError "string index out of range")
  | VStr (String ch _) => Ok (EStr (String ch ""))
  | VFloat _ => Raise (TypeError "'float' object is not subscriptable")
  | VTuple l =>
      match l with
      | e :: _ => Ok e
      | [] => Raise (IndexError "tuple index out of range")
      end
  | VArr a =>
      match elems a with
      | e :: _ => Ok e
      | [] => Raise (IndexError "index 0 is out of bounds for axis 0 with size 0")
      end
  end.

(** [isinstance(e, str | np.str_)] *)
Definition is_str (e : elem) : bool :=
  match e with EStr _ => true | _ => false end.

(** [isinstance(c, np.ndarray | list)] *)
Definition is_ndarray (c : pyval) : bool :=
  match c with VArr _ => true | _ => false end.

Global Instance Q_eq_dec : EqDecision Q.
Proof. solve_decision. Defined.
Global Instance elem_eq_dec : EqDecision elem.
Proof. solve_decision. Defined.

(** [Series.unique()]: the distinct values in order of first appearance. *)
Fixpoint unique_from {A} `{EqDecision A} (seen : list A) (l : list A) : list A :=
  match l with
  | [] => []
  | x :: l' =>
      if decide (x ∈ seen) then unique_from seen l'
      else x :: unique_from (x :: seen) l'
  end.

Definition pd_unique (col : ndarray) : list elem := unique_from [] (elems col).

Section SortedUnique.
Context {A : Type} (cmp : A → A → comparison).

(** Insert into a strictly increasing list, dropping a value already there. *)
Fixpoint insert_unique (x : A) (l : list A) : list A :=
  match l with
  | [] => [x]
  | y :: l' =>
      match cmp x y with
      | Lt => x :: y :: l'
      | Eq => y :: l'
      | Gt => y :: insert_unique x l'
      end
  end.

(** [np.unique(l)]: the sorted distinct values. *)
Definition sorted_unique (l : list A) : list A := foldr insert_unique [] l.
End SortedUnique.

(** Position of the first entry equal to [x]; [length l] when there is none. *)
Fixpoint first_index {A} `{EqDecision A} (x : A) (l : list A) : nat :=
  match l with
  | [] => 0
  | y :: l' => if decide (x = y) then 0 else S (first_index x l')
  end.

(** [np.unique(i, return_index=True)]: the sorted distinct values and, for
    each, the index of its first occurrence in [i]. *)
Definition np_unique_index (i : list Z) : list Z * list nat :=
  let ui := sorted_unique Z.compare i in
  (ui, (λ u, first_index u i) <$> ui).

(** [c[ai]] on a one-dimensional array: the entries at the given indices. *)
Fixpoint take_indices {A} (l : list A) (ai : list nat) : outcome (list A) :=
  match ai with
  | [] => Ok []
  | k :: ai' =>
      match l !! k, take_indices l ai' with
      | Some x, Ok r => Ok (x :: r)
      | None, _ => Raise (IndexError (out_of_bounds k 0 (length l)))
      | _, Raise e => Raise e
      end
  end.

(** [samalg.utilities.convert_annotations], the external categorical
    encoder, as the specification describes it: compute the sorted
    distinct labels and map each row to the index of its label. *)
Definition convert_annotations (c : list string) : list Z :=
  let x := sorted_unique String.compare c in
  (λ s, Z.of_nat (first_index s x)) <$> c.

(** ** pyplot *)

(** A new figure, which becomes the current one. *)
Definition new_figure (figsize : option (Q * Q)) : M nat :=
  p ← get_plt;
  let f := n_figures p in
  put_plt {| n_figures := S f; n_axes := n_axes p; gcf := Some f; gca := None;
             calls := calls p ++ [Call_figure f figsize] |};;
  mret f.

(** [plt.figure()] *)
Definition plt_figure : M nat := new_figure None.

(** [plt.figure(figsize=(width, height))]: matplotlib checks the size
    before it creates anything. *)
Definition plt_figure_figsize (mpl : Matplotlib) (figsize : Q * Q) : M nat :=
  match figure_error mpl figsize with
  | Some e => raise e
  | None => new_figure (Some figsize)
  end.

(** [plt.gcf()]: the current figure, created when there is none. *)
Definition plt_gcf : M nat :=
  p ← get_plt;
  match gcf p with
  | Some f => mret f
  | None => plt_figure
  end.

(** A new axes in figure [f]; [current] says whether it becomes the
    current axes. *)
Definition new_axes (f : nat) (current : bool) : M Axes :=
  p ← get_plt;
  let a := {| ax_id := n_axes p; ax_figure := f |} in
  put_plt {| n_figures := n_figures p; n_axes := S (n_axes p); gcf := gcf p;
             gca := if current then Some a else gca p;
             calls := calls p ++ [Call_add_axes a] |};;
  mret a.

(** [plt.gca()]: the current axes, created (with a figure, if there is
    none) when the current figure has no axes yet. *)
Definition plt_gca : M Axes :=
  p ← get_plt;
  match gca p with
  | Some a => mret a
  | None =>
      f ← plt_gcf;
      new_axes f true
  end.

Fixpoint add_subplots (f : nat) (n : nat) : M (list Axes) :=
  match n with
  | O => mret []
  | S n' => a ← new_axes f true; l ← add_subplots f n'; mret (a :: l)
  end.

(** [plt.subplots(1, ncols)]: a new figure with one row of axes.  With the
    default [squeeze=True] a single subplot comes back as a bare Axes
    object and several as an array; matplotlib rejects [ncols = 0]. *)
Definition plt_subplots_row (ncols : nat) : M (nat * pyobj) :=
  f ← plt_figure;
  match ncols with
  | O => raise (ValueError "Number of columns must be a positive integer, not 0")
  | _ =>
      l ← add_subplots f ncols;
      mret (f, match l with [a] => PAxes a | _ => PAxesArr l end)
  end.

(** [axes[i]] *)
Definition axes_getitem (axes : pyobj) (i : nat) : outcome Axes :=
  match axes with
  | PAxesArr l =>
      match l !! i with
      | Some a => Ok a
      | None => Raise (IndexError (out_of_bounds i 0 (length l)))
      end
  | PAxes _ => Raise (TypeError "'Axes' object is not subscriptable")
  | PFigure _ => Raise (TypeError "'Figure' object is not subscriptable")
  | PNone => Raise (TypeError "'NoneType' object is not subscriptable")
  end.

(** [p.set_axis_off()] *)
Definition set_axis_off (p : pyobj) : M unit :=
  match p with
  | PAxes a => log (Call_set_axis_off a)
  | _ => raise (AttributeError "object has no attribute 'set_axis_off'")
  end.

(** [axes.scatter(x, y, c=..., cmap=..., s=..., ...)]: matplotlib raises
    for arguments it rejects; otherwise the result names the drawn
    collection by the position of the call. *)
Definition axes_scatter (mpl : Matplotlib) (a : Axes) (x y : list Q)
    (c : option pyval) (cmap : option string) (s linewidth : Q)
    (edgecolor : string) (kw : kwargs) : M nat :=
  p ← get_plt;
  log (Call_scatter a x y c cmap s linewidth edgecolor kw);;
  match scatter_error mpl x y c cmap s linewidth edgecolor kw with
  | Some e => raise e
  | None => mret (length (calls p))
  end.

(** [plt.colorbar(cax, ax=a, ticks=...)], that is
    [gcf().colorbar(cax, ax=a, ticks=...)]: pyplot first gets the current
    figure, opening one when there is none; the colorbar then gets an
    axes of its own in the figure of [a], and the current axes stay as
    they were. *)
Definition plt_colorbar (mappable : nat) (a : Axes) (ticks : option (list Z)) : M Axes :=
  plt_gcf;;
  p ← get_plt;
  let cb := {| ax_id := n_axes p; ax_figure := ax_figure a |} in
  put_plt {| n_figures := n_figures p; n_axes := S (n_axes p); gcf := gcf p;
             gca := gca p;
             calls := calls p ++ [Call_colorbar mappable a ticks cb] |};;
  mret cb.

(** [cbar.ax.set_yticklabels(labels)] *)
Definition set_yticklabels (cbar_ax : Axes) (labels : list string) : M unit :=
  log (Call_set_yticklabels cbar_ax labels).

(** ** Collaborators inside scanpy *)

(** Modelled from the spec: [scanpy.plotting.embedding], the generic
    embedding-scatter primitive, is not among the sources.  Section 4.1:
    it looks up the coordinate array of the basis in the container's
    embeddings (under the key itself or its [X_] form, as the [phate]
    doctest stores it), fails with the container's lookup error when the
    key is absent, draws on the given axes (a new one when none is given)
    and returns the axes, or nothing when asked to show. *)
Definition embedding (basis : string) (kw : embedding_kwargs) : M pyobj :=
  a ← get_adata;
  _ ← lift (match obsm a !! basis with
            | Some dt => Ok dt
            | None => getitem (obsm a) ("X_" +:+ basis)
            end);
  axs ← match ax kw with
        | Some x => mret x
        | None => plt_figure;; plt_gca
        end;
  log (Call_embedding basis (color kw) (groups kw) (title kw) (show kw) axs
         (legend_loc kw));;
  mret (if show kw then PNone else PAxes axs).

(** Modelled from the spec: [scanpy.plotting._utils.savefig_or_show], the
    shared save-or-show helper, is not among the sources.  Section 6: an
    optional [save] path or flag triggers persistence to disk, [show]
    renders; the helper returns nothing. *)
Definition savefig_or_show (name : string) (show : bool) (save : option save_arg) : M unit :=
  log (Call_savefig_or_show name show save).

(** [ut.convert_annotations(c)] as called from [sam]. *)
Definition ut_convert_annotations (labels : list string) : M (list Z) :=
  log (Call_convert_annotations labels);;
  mret (convert_annotations labels).

(** ** The module *)

Definition phate (kw : embedding_kwargs) : M pyobj := embedding "phate" kw.

Definition trimap (kw : embedding_kwargs) : M pyobj := embedding "trimap" kw.

(** The body of the loop of [harmony_timeseries], at index [i] and time
    point [tp]. *)
Definition harmony_panel (tp_name : string) (axes : pyobj) (i_tp : nat * elem) : M unit :=
  let '(i, tp) := i_tp in
  axi ← lift (axes_getitem axes i);
  p ← embedding "harmony"
        {| color := Some tp_name; groups := Some tp; title := Some tp;
           show := false; ax := Some axi; legend_loc := Some "none" |};
  set_axis_off p.

(** [**kwargs] is accepted and not forwarded.  The value stored under
    [harmony_timepoint_var] has to be a string to name a column of
    [adata.obs]. *)
Definition harmony_timeseries (show return_fig : bool) (kw : kwargs) : M pyobj :=
  a ← get_adata;
  v ← lift (getitem (uns a) "harmony_timepoint_var");
  match v with
  | UFrame _ => raise (TypeError "a column name is expected")
  | UStr tp_name =>
      col ← lift (getitem (obs a) tp_name);
      let tps := pd_unique col in
      '(fig, axes) ← plt_subplots_row (length tps);
      for_each (enumerate tps) (harmony_panel tp_name axes);;
      if return_fig then mret (PFigure fig)
      else if show then mret PNone
      else mret axes
  end.

Inductive projection_arg :=
| ProjKey (key : string)
| ProjArray (dt : ndarray2).

Definition projection_msg : string :=
  "Please create a projection first using run_umap or run_tsne".

Definition sam (mpl : Matplotlib) (projection : projection_arg) (c : option pyval)
    (cmap : string) (linewidth : Q) (edgecolor : string) (axes : option Axes)
    (colorbar : bool) (s : Q) (kw : kwargs) : M Axes :=
  a ← get_adata;
  dt ← match projection with
       | ProjKey key =>
           try_except (lift (getitem (obsm a) key)) (λ e,
             match e with
             | KeyError _ =>
                 Some (raise (Chained (ValueError projection_msg) e))
             | _ => None
             end)
       | ProjArray dt => mret dt
       end;
  axes ← match axes with
         | None => plt_figure;; plt_gca
         | Some axs => mret axs
         end;
  match c with
  | None =>
      x ← lift (column 0 dt);
      y ← lift (column 1 dt);
      axes_scatter mpl axes x y None None s linewidth edgecolor kw;;
      mret axes
  | Some c =>
      c ← match c with
          | VStr name =>
              (* with contextlib.suppress(KeyError) *)
              try_except (col ← lift (getitem (obs a) name); mret (VArr col)) (λ e,
                match e with
                | KeyError _ => Some (mret c)
                | _ => None
                end)
          | _ => mret c
          end;
      c0 ← lift (getitem0 c);
      if is_str c0 && is_ndarray c then
        match c with
        | VArr (StrArr labels) =>
            i ← ut_convert_annotations labels;
            let '(ui, ai) := np_unique_index i in
            x ← lift (column 0 dt);
            y ← lift (column 1 dt);
            cax ← axes_scatter mpl axes x y (Some (VArr (IntArr i))) (Some cmap) s
                    linewidth edgecolor kw;
            (if colorbar then
               cbar_ax ← plt_colorbar cax axes (Some ui);
               ticklabels ← lift (take_indices labels ai);
               set_yticklabels cbar_ax ticklabels
             else mret tt);;
            mret axes
        | _ =>
            (* not reached: an array whose first entry is a string is a
               string array, see [str_array_guard] *)
            raise (TypeError "string array expected")
        end
      else
        let colorbar := if is_ndarray c then colorbar else false in
        let i := c in
        x ← lift (column 0 dt);
        y ← lift (column 1 dt);
        cax ← axes_scatter mpl axes x y (Some i) (Some cmap) s linewidth edgecolor
                kw;
        (if colorbar then plt_colorbar cax axes None;; mret tt else mret tt);;
        mret axes
  end.

(** The external wishbone library, as far as the module uses it: the
    conversion of a container into a wishbone object (scanpy's
    [_anndata_to_wishbone], not among the sources) and that object's
    [plot_marker_trajectory], which returns the three tables by name
    together with the figure and axes it drew on. *)
Record WishboneLib := {
  Wishbone : Type;
  _anndata_to_wishbone : AnnData → outcome Wishbone;
  plot_marker_trajectory :
    Wishbone → list string → bool → Z → Z → Q → nat → Axes →
    outcome (gmap string DataFrame * nat * Axes)
}.

Definition wishbone_marker_trajectory (mpl : Matplotlib) (lib : WishboneLib)
    (markers : list string)
    (no_bins smoothing_factor : Z) (min_delta : Q) (show_variance : bool)
    (figsize : option (Q * Q)) (return_fig show : bool)
    (save : option save_arg) (ax : option Axes) : M pyobj :=
  a ← get_adata;
  wb ← lift (_anndata_to_wishbone lib a);
  let '(width, height) :=
    match figsize with
    | None => (2 * inject_Z (Z.of_nat (length markers)),
               (3 # 4) * inject_Z (Z.of_nat (length markers)))%Q
    | Some wh => wh
    end in
  '(fig, ax) ← match ax with
               | Some axs => mret (ax_figure axs, axs)
               | None =>
                   fig ← plt_figure_figsize mpl (width, height);
                   axs ← plt_gca;
                   mret (fig, axs)
               end;
  log (Call_plot_marker_trajectory fig ax);;
  '(ret_values, fig, ax) ←
    lift (plot_marker_trajectory lib wb markers show_variance no_bins
            smoothing_factor min_delta fig ax);
  trunk ← lift (getitem ret_values "Trunk");
  setitem_uns "trunk_wishbone" (UFrame trunk);;
  branch1 ← lift (getitem ret_values "Branch1");
  setitem_uns "branch1_wishbone" (UFrame branch1);;
  branch2 ← lift (getitem ret_values "Branch2");
  setitem_uns "branch2_wishbone" (UFrame branch2);;
  savefig_or_show "wishbone_trajectory" show save;;
  if return_fig then mret (PFigure fig)
  else if show then mret PNone
  else mret (PAxes ax).

(** ** The display contract, as the specification words it *)

(** [return_fig] returns the figure; else [show] returns nothing; else the
    axes are returned. *)
Definition display_contract (return_fig show : bool) (fig axes : pyobj) : pyobj :=
  if return_fig then fig else if show then PNone else axes.

(** The colour value [sam] works with once a string has been looked up
    among the observation attributes. *)
Definition resolved_color (a : AnnData) (c : pyval) : pyval :=
  match c with
  | VStr name =>
      match obs a !! name with
      | Some col => VArr col
      | None => c
      end
  | _ => c
  end.

(** The coordinate array [sam] draws, when the projection yields one. *)
Definition projection_array (a : AnnData) (projection : projection_arg) : option ndarray2 :=
  match projection with
  | ProjKey key => obsm a !! key
  | ProjArray dt => Some dt
  end.

Definition is_colorbar (c : call) : bool :=
  match c with Call_colorbar _ _ _ _ => true | _ => false end.

Definition is_convert_annotations (c : call) : bool :=
  match c with Call_convert_annotations _ => true | _ => false end.

Definition is_embedding (c : call) : bool :=
  match c with Call_embedding _ _ _ _ _ _ _ => true | _ => false end.

(** The colour argument of a scatter call, if the call is one. *)
Definition scatter_color (c : call) : option (option pyval) :=
  match c with
  | Call_scatter _ _ _ col _ _ _ _ _ => Some col
  | _ => None
  end.

(** The axes a scatter call draws on, if the call is one. *)
Definition scatter_axes (c : call) : option Axes :=
  match c with
  | Call_scatter a _ _ _ _ _ _ _ _ => Some a
  | _ => None
  end.

(** [false] on string arrays, [true] on float and integer arrays. *)
Definition is_numeric (a : ndarray) : bool :=
  match a with StrArr _ => false | _ => true end.

(** The axes [sam] draws on: the caller's, or the first axes of a new
    figure. *)
Definition axes_used (axes : option Axes) (w : world) : Axes :=
  match axes with
  | Some a => a
  | None => {| ax_id := n_axes (plt w); ax_figure := n_figures (plt w) |}
  end.

(** The calls [sam] makes to obtain its axes. *)
Definition axes_calls (axes : option Axes) (w : world) : list call :=
  match axes with
  | Some _ => []
  | None => [Call_figure (n_figures (plt w)) None; Call_add_axes (axes_used None w)]
  end.

(** The world after further calls have been recorded. *)
Definition add_calls (l : list call) (w : world) : world :=
  {| adata := adata w;
     plt := {| n_figures := n_figures (plt w); n_axes := n_axes (plt w);
               gcf := gcf (plt w); gca := gca (plt w);
               calls := calls (plt w) ++ l |} |}.

(** The axes of a row of [n] subplots in figure [f], the first of which
    has id [first]. *)
Definition subplot_axes (f first n : nat) : list Axes :=
  (λ i, {| ax_id := first + i; ax_figure := f |}) <$> seq 0 n.

(** What one panel of [harmony_timeseries] asks of the toolkit: an
    embedding scatter of the rows of one time point, without legend, on
    the panel's axes, and then the removal of the axis decorations. *)
Definition panel_calls (tp_name : string) (tp : elem) (a : Axes) : list call :=
  [Call_embedding "harmony" (Some tp_name) (Some tp) (Some tp) false a (Some "none");
   Call_set_axis_off a].

Definition panels_calls (tp_name : string) (tps : list elem) (axs : list Axes) : list call :=
  concat (zip_with (panel_calls tp_name) tps axs).

(** The basis is among the container's embeddings, under its name or its
    [X_] form. *)
Definition has_basis (a : AnnData) (basis : string) : Prop :=
  is_Some (obsm a !! basis) ∨ is_Some (obsm a !! ("X_" +:+ basis)).

(** Strictly increasing for the order a comparison function gives. *)
Definition increasing {A} (cmp : A → A → comparison) : list A → Prop :=
  StronglySorted (λ x y, cmp x y = Lt).

(** ** Sample data *)

Definition plt_fresh : pyplot :=
  {| n_figures := 0; n_axes := 0; gcf := None; gca := None; calls := [] |}.

Definition sample_points : ndarray2 :=
  {| ncols := 2;
     rows := [[0; 0]; [1; 2]; [2; 1]; [3; 3]; [4; 1 # 2]]%Q |}.

Definition sample_adata : AnnData :=
  {| obsm := <["X_umap" := sample_points]> (<["X_harmony" := sample_points]> ∅);
     obs := <["group" := StrArr ["A"; "B"; "A"; "C"; "B"]]>
              (<["tp" := StrArr ["t1"; "t2"; "t1"; "t0"; "t2"]]>
                 (<["score" := FloatArr [1 # 2; 3; 1 # 4; 2; 0]%Q]> ∅));
     uns := <["harmony_timepoint_var" := UStr "tp"]> ∅ |}.

Definition sample_world : world := {| adata := sample_adata; plt := plt_fresh |}.

(** The same container with a single time point. *)
Definition single_timepoint_adata : AnnData :=
  {| obsm := obsm sample_adata;
     obs := <["tp" := StrArr ["t0"; "t0"; "t0"; "t0"; "t0"]]> (obs sample_adata);
     uns := uns sample_adata |}.

Definition single_timepoint_world : world :=
  {| adata := single_timepoint_adata; plt := plt_fresh |}.

(** A stand-in for the wishbone library: the tables it returns carry the
    marker names. *)
Definition sample_wishbone : WishboneLib :=
  {| Wishbone := AnnData;
     _anndata_to_wishbone := λ a, Ok a;
     plot_marker_trajectory := λ _ markers _ _ _ _ fig axs,
       Ok (<["Trunk" := {| df_columns := markers; df_values := [[1]]%Q |}]>
             (<["Branch1" := {| df_columns := markers; df_values := [[2]]%Q |}]>
                (<["Branch2" := {| df_columns := markers; df_values := [[3]]%Q |}]> ∅)),
           fig, axs) |}.

(** A stand-in for matplotlib's validation: a figure size must not be
    negative; a colour string must be one of a few colour names, and a
    colour array must have one entry per point. *)
Definition sample_matplotlib : Matplotlib :=
  {| figure_error := λ '(width, height),
       if Qle_bool 0 width && Qle_bool 0 height then None
       else Some (ValueError "figure size must be positive finite");
     scatter_error := λ x _ c _ _ _ _ _,
       match c with
       | Some (VStr name) =>
           if bool_decide (name ∈ ["red"; "green"; "blue"; "k"]) then None
           else Some (ValueError "'c' argument must be a color, a sequence of colors, or a sequence of numbers")
       | Some (VArr a) =>
           if (length (elems a) =? length x)%nat then None
           else Some (ValueError "'c' argument is inconsistent with 'x' and 'y'")
       | _ => None
       end |}.

(** ** Further notions used to state properties *)

(** The colour [sam] hands to the scatter primitive: the integer codes
    for a string array, the value itself otherwise. *)
Definition drawn_color (c : pyval) : pyval :=
  match c with
  | VArr (StrArr labels) => VArr (IntArr (convert_annotations labels))
  | _ => c
  end.

(** The figure [plt.colorbar] opens through [gcf()]: none when [sam]
    has just made its own figure or pyplot has a current one. *)
Definition gcf_calls (axes : option Axes) (w : world) : list call :=
  match axes, gcf (plt w) with
  | Some _, None => [Call_figure (n_figures (plt w)) None]
  | _, _ => []
  end.

Definition succeeds {A} (o : outcome A) : Prop := ∃ a, o = Ok a.

Definition is_figure_call (c : call) : bool :=
  match c with Call_figure _ _ => true | _ => false end.

Definition is_scatter (c : call) : bool :=
  match c with Call_scatter _ _ _ _ _ _ _ _ _ => true | _ => false end.

Definition is_set_yticklabels (c : call) : bool :=
  match c with Call_set_yticklabels _ _ => true | _ => false end.

Definition is_savefig_or_show (c : call) : bool :=
  match c with Call_savefig_or_show _ _ _ => true | _ => false end.

(** The figure and axes [wishbone_marker_trajectory] hands to the
    trajectory object: the caller's axes with its figure, or the first
    axes of a new figure. *)
Definition wishbone_canvas (ax : option Axes) (w : world) : nat * Axes :=
  match ax with
  | Some a => (ax_figure a, a)
  | None => (n_figures (plt w), axes_used None w)
  end.

(** The size of the figure [wishbone_marker_trajectory] creates for
    [n] markers when none is given: [2 n] wide and [0.75 n] high. *)
Definition default_figsize (n : nat) : Q * Q :=
  (2 * inject_Z (Z.of_nat n), (3 # 4) * inject_Z (Z.of_nat n))%Q.

(** The size [wishbone_marker_trajectory] asks for when it creates the
    figure. *)
Definition requested_figsize (markers : list string) (figsize : option (Q * Q)) : Q * Q :=
  match figsize with
  | Some wh => wh
  | None => default_figsize (length markers)
  end.

(** A wishbone library whose conversion fails, and one whose plotting
    method leaves out the second branch. *)
Definition failing_wishbone : WishboneLib :=
  {| Wishbone := AnnData;
     _anndata_to_wishbone := λ _, Raise (KeyError "trajectory");
     plot_marker_trajectory := λ _ _ _ _ _ _ _ _, Raise (ValueError "unused") |}.

Definition truncated_wishbone : WishboneLib :=
  {| Wishbone := AnnData;
     _anndata_to_wishbone := λ a, Ok a;
     plot_marker_trajectory := λ _ markers _ _ _ _ fig axs,
       Ok (<["Trunk" := {| df_columns := markers; df_values := [[1]]%Q |}]>
             (<["Branch2" := {| df_columns := markers; df_values := [[3]]%Q |}]> ∅),
           fig, axs) |}.

(** A container without the time-point metadata, and one whose metadata
    names a missing attribute. *)
Definition bare_world : world :=
  {| adata := {| obsm := obsm sample_adata; obs := obs sample_adata; uns := ∅ |};
     plt := plt_fresh |}.

Definition dangling_world : world :=
  {| adata := {| obsm := obsm sample_adata; obs := obs sample_adata;
                 uns := <["harmony_timepoint_var" := UStr "stage"]> ∅ |};
     plt := plt_fresh |}.

(** A projection with a single column. *)
Definition narrow_points : ndarray2 := {| ncols := 1; rows := [[0]; [1]]%Q |}.

(** * Properties *)

Ltac unfold_M :=
  cbv [mbind M_bind mret M_ret lift raise try_except get_adata get_plt put_plt
       log setitem_uns new_figure plt_figure plt_figure_figsize plt_gcf new_axes
       plt_gca axes_scatter plt_colorbar set_yticklabels ut_convert_annotations
       savefig_or_show set_axis_off] in *.

Ltac step_M :=
  repeat (case_match; simplify_eq/=; try done).

Ltac trace_split :=
  simpl; rewrite <- ?app_assoc; simpl;
  first [ eexists; split; [reflexivity|]
        | exists []; split; [by rewrite app_nil_r|] ].

Ltac ltb_to_le :=
  repeat match goal with
  | H : (_ <? _) = true |- _ => apply Nat.ltb_lt in H
  | H : (_ <? _) = false |- _ => apply Nat.ltb_ge in H
  end.

Section Properties.
Context (mpl : Matplotlib).

(** ** Sorted distinct values and first occurrences *)

Section SortedUniqueFacts.
Context {A : Type} (cmp : A → A → comparison).
Hypothesis cmp_eq : ∀ x y, cmp x y = Eq → x = y.
Hypothesis cmp_gt : ∀ x y, cmp x y = Gt → cmp y x = Lt.
Hypothesis cmp_trans : ∀ x y z, cmp x y = Lt → cmp y z = Lt → cmp x z = Lt.
Hypothesis cmp_irrefl : ∀ x, cmp x x ≠ Lt.

Lemma elem_of_insert_unique x y l :
  y ∈ insert_unique cmp x l ↔ y = x ∨ y ∈ l.
Proof.
  induction l as [|z l IH]; simpl.
  - rewrite list_elem_of_singleton, elem_of_nil. tauto.
  - destruct (cmp x z) eqn:Hc.
    + apply cmp_eq in Hc as ->. rewrite elem_of_cons. tauto.
    + rewrite !elem_of_cons. tauto.
    + rewrite !elem_of_cons, IH. tauto.
Qed.

Lemma elem_of_sorted_unique y l : y ∈ sorted_unique cmp l ↔ y ∈ l.
Proof.
  unfold sorted_unique. induction l as [|x l IH]; simpl; [done|].
  rewrite elem_of_insert_unique, IH, elem_of_cons. tauto.
Qed.


Lemma insert_unique_increasing x l :
  increasing cmp l → increasing cmp (insert_unique cmp x l).
Proof.
  unfold increasing. induction 1 as [|z l Hl IH Hz]; simpl.
  - repeat constructor.
  - destruct (cmp x z) eqn:Hc.
    + by constructor.
    + constructor; [by constructor|]. constructor; [done|].
      eapply Forall_impl; [exact Hz|]. intros u Hu. by eapply cmp_trans.
    + constructor; [done|]. apply Forall_forall. intros u Hu.
      apply elem_of_insert_unique in Hu as [->|Hu]; [by apply cmp_gt|].
      by eapply Forall_forall in Hz.
Qed.

Lemma sorted_unique_increasing l : increasing cmp (sorted_unique cmp l).
Proof.
  unfold sorted_unique. induction l; simpl.
  - constructor.
  - by apply insert_unique_increasing.
Qed.

Lemma increasing_NoDup l : increasing cmp l → NoDup l.
Proof.
  induction 1 as [|x l Hl IH Hx]; constructor; [|done].
  intros Hin. eapply Forall_forall in Hx; [|done]. by apply cmp_irrefl in Hx.
Qed.

Lemma sorted_unique_NoDup l : NoDup (sorted_unique cmp l).
Proof. apply increasing_NoDup, sorted_unique_increasing. Qed.
End SortedUniqueFacts.

Section FirstIndex.
Context {A : Type} `{EqDecision A}.
Implicit Types (x : A) (l : list A).

Lemma first_index_lookup x l : x ∈ l → l !! first_index x l = Some x.
Proof.
  induction l as [|y l IH]; simpl; [by intros ?%elem_of_nil|].
  intros Hin. case_decide; simplify_eq/=; [done|].
  apply elem_of_cons in Hin as [?|?]; [done|by apply IH].
Qed.

Lemma first_index_least x l j : j < first_index x l → l !! j ≠ Some x.
Proof.
  revert j. induction l as [|y l IH]; simpl; intros j Hj; [lia|].
  case_decide; [lia|]. destruct j as [|j]; simpl; [congruence|].
  apply IH. lia.
Qed.

Lemma first_index_lt x l : x ∈ l → first_index x l < length l.
Proof. intros Hin. eapply lookup_lt_Some, first_index_lookup, Hin. Qed.
End FirstIndex.

Lemma take_indices_Ok {A} (l : list A) ai r :
  take_indices l ai = Ok r → Forall2 (λ k x, l !! k = Some x) ai r.
Proof.
  revert r. induction ai as [|k ai IH]; simpl; intros r Hr.
  - simplify_eq. constructor.
  - destruct (l !! k) eqn:Hk; [|done].
    destruct (take_indices l ai); simplify_eq. constructor; auto.
Qed.

Lemma take_indices_in_range {A} (l : list A) ai :
  Forall (λ k, k < length l) ai → ∃ r, take_indices l ai = Ok r.
Proof.
  induction 1 as [|k ai Hk _ [r Hr]]; simpl; [by eexists|].
  apply lookup_lt_is_Some in Hk as [x ->]. rewrite Hr. by eexists.
Qed.

(** [np.unique(i, return_index=True)] on integer codes. *)
Lemma np_unique_index_spec (i : list Z) ui ai :
  np_unique_index i = (ui, ai) →
  NoDup ui ∧ StronglySorted Z.lt ui ∧ (∀ z, z ∈ ui ↔ z ∈ i) ∧
  Forall2 (λ u k, i !! k = Some u ∧ ∀ j, j < k → i !! j ≠ Some u) ui ai.
Proof.
  unfold np_unique_index. intros [= <- <-].
  assert (Hin : ∀ z, z ∈ sorted_unique Z.compare i ↔ z ∈ i)
    by (intros z; apply elem_of_sorted_unique, Z.compare_eq).
  split_and!.
  - apply sorted_unique_NoDup.
    + apply Z.compare_eq.
    + intros x y. rewrite Z.compare_gt_iff, Z.compare_lt_iff. lia.
    + intros x y z. rewrite !Z.compare_lt_iff. lia.
    + intros x. rewrite Z.compare_lt_iff. lia.
  - rewrite <- (list_fmap_id (sorted_unique _ _)).
    eapply StronglySorted_fmap; [|apply (sorted_unique_increasing Z.compare)].
    + intros x y. by rewrite Z.compare_lt_iff.
    + apply Z.compare_eq.
    + intros x y. rewrite Z.compare_gt_iff, Z.compare_lt_iff. lia.
    + intros x y z. rewrite !Z.compare_lt_iff. lia.
  - done.
  - apply Forall2_fmap_r, Forall_Forall2_diag, Forall_forall.
    intros u Hu%Hin. split; [by apply first_index_lookup|].
    intros j. apply first_index_least.
Qed.

(** ** The generic projection scatter *)

(** The guard of the categorical branch holds of string arrays only. *)
Lemma str_array_guard c c0 :
  getitem0 c = Ok c0 → is_str c0 && is_ndarray c = true →
  ∃ labels, c = VArr (StrArr labels).
Proof.
  intros H0 [Hs Ha]%andb_true_iff.
  destruct c as [| | |[l|l|l]]; try done; [by eexists|..];
    destruct l; simplify_eq/=; done.
Qed.

(** C8: every successful call of [sam] returns the axes it drew on: the
    caller's axes when one is given, otherwise the axes newly created in
    a new figure; in all colour branches. *)
Theorem sam_returns_axes_used projection c cmap lw ec axes cb s kw w r w' :
  sam mpl projection c cmap lw ec axes cb s kw w = (Ok r, w') →
  r = axes_used axes w ∧
  ∃ rest, calls (plt w') = calls (plt w) ++ axes_calls axes w ++ rest ∧
          Exists (λ ev, scatter_axes ev = Some r) rest.
Proof.
  unfold sam, axes_used, axes_calls. unfold_M. intros H.
  step_M; (split; [reflexivity|]); trace_split;
    repeat first [ by apply Exists_cons_hd | apply Exists_cons_tl ].
Qed.

(** C6: when the colour value [sam] ends up with is not an array (a
    string that names no observation attribute, a scalar, a tuple), no
    colorbar is drawn, whatever the colorbar option says and however the
    call ends. *)
Theorem sam_constant_color_no_colorbar projection c cmap lw ec axes cb s kw w :
  is_ndarray (resolved_color (adata w) c) = false →
  ∃ new,
    calls (plt (sam mpl projection (Some c) cmap lw ec axes cb s kw w).2)
    = calls (plt w) ++ new ∧
    Forall (λ ev, is_colorbar ev = false) new.
Proof.
  unfold sam, resolved_color, getitem. unfold_M. intros H.
  step_M; trace_split; repeat constructor.
Qed.

(** C7: for a numeric colour array (given as such or found under an
    observation attribute) the categorical encoder is never called and
    no scatter call carries anything but the array itself; and once the
    projection has its two columns and the array a first entry, the
    scatter primitive is called, once, with the array itself as the
    colour. *)
Theorem sam_numeric_passthrough projection c arr cmap lw ec axes cb s kw w :
  resolved_color (adata w) c = VArr arr →
  is_numeric arr = true →
  (∃ new,
     calls (plt (sam mpl projection (Some c) cmap lw ec axes cb s kw w).2)
     = calls (plt w) ++ new ∧
     Forall (λ ev, is_convert_annotations ev = false ∧
                   ∀ col, scatter_color ev = Some col → col = Some (VArr arr)) new) ∧
  (∀ dt, projection_array (adata w) projection = Some dt → 2 ≤ ncols dt →
         elems arr ≠ [] →
     ∃ x y rest,
       column 0 dt = Ok x ∧ column 1 dt = Ok y ∧
       calls (plt (sam mpl projection (Some c) cmap lw ec axes cb s kw w).2)
       = calls (plt w) ++ axes_calls axes w ++
         [Call_scatter (axes_used axes w) x y (Some (VArr arr)) (Some cmap) s lw
            ec kw] ++ rest ∧
       Forall (λ ev, is_scatter ev = false ∧ is_convert_annotations ev = false)
         rest).
Proof.
  intros H Hnum. split.
  - unfold sam, resolved_color, getitem in *. unfold_M.
    step_M; trace_split; repeat constructor; by intros ? [= <-].
  - intros dt Hdt Hcols Hne.
    unfold sam, resolved_color, projection_array, getitem, column, axes_used,
      axes_calls in *. unfold_M.
    step_M; ltb_to_le; try lia;
      try (exfalso; apply Hne;
           match goal with H : elems ?a = [] |- _ => exact H end);
      try (exfalso;
           match goal with
           | H : _ <$> ?l0 = _ :: _ |- _ => destruct l0; simplify_eq/=
           end; done);
      eexists _, _, _; (split; [reflexivity|]); (split; [reflexivity|]);
      (split; [rewrite <- ?app_assoc; reflexivity|]); repeat constructor.
Qed.

Lemma column_Ok k dt : k < ncols dt → ∃ x, column k dt = Ok x.
Proof.
  intros Hk. unfold column.
  destruct (k <? ncols dt) eqn:E; [by eexists|]. apply Nat.ltb_ge in E. lia.
Qed.

(** C4: when the colour is a string that names no observation attribute,
    the failed lookup is swallowed and the string itself is the colour:
    an error of the call has another source (the projection lookup,
    [c[0]] on the empty string, a column access, or the scatter
    primitive), and once the projection has its two columns and the
    string a first character, the scatter primitive is called with the
    string as the colour, no colorbar is drawn, and the call ends as the
    scatter call does. *)
Theorem sam_color_lookup_fallback projection name cmap lw ec axes cb s kw w :
  obs (adata w) !! name = None →
  (∀ e, (sam mpl projection (Some (VStr name)) cmap lw ec axes cb s kw w).1
        = Raise e →
     (∃ key, projection = ProjKey key ∧ obsm (adata w) !! key = None ∧
             e = Chained (ValueError projection_msg) (KeyError key)) ∨
     (name = "" ∧ e = IndexError "string index out of range") ∨
     (∃ dt k, projection_array (adata w) projection = Some dt ∧
              column k dt = Raise e) ∨
     (∃ x y, scatter_error mpl x y (Some (VStr name)) (Some cmap) s lw ec kw
             = Some e)) ∧
  (∀ dt, projection_array (adata w) projection = Some dt → 2 ≤ ncols dt →
         name ≠ "" →
     ∃ x y w',
       column 0 dt = Ok x ∧ column 1 dt = Ok y ∧
       sam mpl projection (Some (VStr name)) cmap lw ec axes cb s kw w
       = (match scatter_error mpl x y (Some (VStr name)) (Some cmap) s lw ec kw with
          | None => Ok (axes_used axes w)
          | Some e => Raise e
          end, w') ∧
       calls (plt w') = calls (plt w) ++ axes_calls axes w ++
         [Call_scatter (axes_used axes w) x y (Some (VStr name)) (Some cmap)
            s lw ec kw]).
Proof.
  intros Hname. split.
  - intros e. unfold sam, getitem, projection_array. unfold_M.
    destruct projection as [key|dt]; [destruct (obsm (adata w) !! key) eqn:Hkey|];
      rewrite ?Hname.
    2: { intros [= <-]. left. by exists key. }
    all: destruct axes as [axs|]; destruct name as [|ch name];
      cbn [getitem0 is_str is_ndarray andb adata plt];
      try (intros [= <-]; right; left; done).
    all: destruct (column 0 _) as [x|e0] eqn:H0;
      [|intros [= <-]; right; right; left; by eexists _, 0].
    all: destruct (column 1 _) as [y|e1] eqn:H1;
      [|intros [= <-]; right; right; left; by eexists _, 1].
    all: cbn [adata plt calls n_axes n_figures gcf gca];
      destruct (scatter_error mpl x y _ _ _ _ _ _) as [e2|] eqn:Hs;
      [|done]; intros [= <-]; right; right; right; by exists x, y.
  - intros dt Hdt Hcols Hne.
    destruct (column_Ok 0 dt) as [x Hx]; [lia|].
    destruct (column_Ok 1 dt) as [y Hy]; [lia|].
    exists x, y. unfold sam, getitem, projection_array in *. unfold_M.
    destruct name as [|ch name]; [done|].
    destruct projection as [key|dt']; simplify_eq/=; rewrite ?Hdt, ?Hname;
      destruct axes as [axs|]; simpl; rewrite ?Hname, Hx, Hy; simpl;
      destruct (scatter_error mpl x y _ _ _ _ _ _);
      eexists; (split; [done|]); (split; [done|]);
      (split; [reflexivity|]); simpl; by rewrite <- ?app_assoc.
Qed.

(** C3, as the code has it: a projection key that is absent from the
    container's embeddings makes [sam] fail with its own ValueError
    raised from the container's KeyError, which it has caught; the world
    is left as it was, so no figure is created. *)
Theorem sam_missing_projection_wrapped key c cmap lw ec axes cb s kw w :
  obsm (adata w) !! key = None →
  sam mpl (ProjKey key) c cmap lw ec axes cb s kw w
  = (Raise (Chained (ValueError projection_msg) (KeyError key)), w).
Proof.
  intros Hkey. unfold sam. unfold_M. unfold getitem. rewrite Hkey. reflexivity.
Qed.

Lemma convert_annotations_length labels :
  length (convert_annotations labels) = length labels.
Proof. unfold convert_annotations. by rewrite length_fmap. Qed.

Lemma first_row_labels (labels : list string) (codes ui : list Z) ai tl :
  Forall2 (λ u k, codes !! k = Some u ∧ ∀ j, j < k → codes !! j ≠ Some u) ui ai →
  take_indices labels ai = Ok tl →
  Forall2 (λ code label, ∃ k,
             codes !! k = Some code ∧
             (∀ j, j < k → codes !! j ≠ Some code) ∧
             labels !! k = Some label) ui tl.
Proof.
  intros Hfirst Htl%take_indices_Ok. revert tl Htl.
  induction Hfirst as [|u k ui ai [Hk Hj] _ IH]; intros tl Htl;
    inversion Htl; simplify_eq; constructor; eauto.
Qed.

(** C2: for a string-typed colour array and a requested colorbar, a call
    of [sam] that returns has encoded the labels, drawn the codes, and
    drawn a colorbar whose ticks are exactly the distinct integer codes
    of the encoding (each once, in increasing order) and whose label at
    each code is the original string of the first row that carries the
    code. *)
Theorem sam_colorbar_ticks_and_labels projection c labels cmap lw ec axes s kw w r w' :
  resolved_color (adata w) c = VArr (StrArr labels) →
  sam mpl projection (Some c) cmap lw ec axes true s kw w = (Ok r, w') →
  ∃ x y m cbar_ax ticks ticklabels,
    calls (plt w') = calls (plt w) ++ axes_calls axes w ++
      [Call_convert_annotations labels;
       Call_scatter (axes_used axes w) x y
         (Some (VArr (IntArr (convert_annotations labels)))) (Some cmap) s lw ec kw]
      ++ gcf_calls axes w ++
      [Call_colorbar m (axes_used axes w) (Some ticks) cbar_ax;
       Call_set_yticklabels cbar_ax ticklabels] ∧
    NoDup ticks ∧ StronglySorted Z.lt ticks ∧
    (∀ z, z ∈ ticks ↔ z ∈ convert_annotations labels) ∧
    Forall2 (λ code label, ∃ k,
               convert_annotations labels !! k = Some code ∧
               (∀ j, j < k →
                     convert_annotations labels !! j ≠ Some code) ∧
               labels !! k = Some label) ticks ticklabels.
Proof.
  intros Hc.
  destruct (np_unique_index (convert_annotations labels)) as [ui ai] eqn:Hu.
  destruct (np_unique_index_spec _ _ _ Hu) as (Hnd & Hsorted & Hin & Hfirst).
  unfold sam, getitem, resolved_color, axes_used, axes_calls, gcf_calls in *.
  unfold_M.
  assert ((∃ c0, getitem0 (VArr (StrArr labels)) = Ok c0 ∧ is_str c0 = true)
          ∨ (∃ e, getitem0 (VArr (StrArr labels)) = Raise e)) as Hfirst_entry.
  { destruct labels; simpl; eauto. }
  destruct c as [name| | |arr];
    [destruct (obs (adata w) !! name) eqn:Hn|..]; simplify_eq;
    (destruct projection as [key|dt]; [destruct (obsm (adata w) !! key)|];
     [..|by intros [=]|]);
    destruct axes as [axs|]; cbn [adata plt calls n_axes n_figures gcf gca];
    (destruct Hfirst_entry as [(c0 & -> & ->)|[e ->]]; [|by intros [=]]);
    cbn [is_ndarray andb]; rewrite Hu;
    (destruct (column 0 _) as [x|]; [|by intros [=]]);
    (destruct (column 1 _) as [y|]; [|by intros [=]]);
    cbn [adata plt calls n_axes n_figures gcf gca];
    (destruct (scatter_error mpl x y _ _ _ _ _ _); [by intros [=]|]);
    try destruct (gcf (plt w));
    cbn [adata plt calls n_axes n_figures gcf gca];
    (destruct (take_indices labels ai) as [tl|] eqn:Htl; [|by intros [=]]);
    intros [= <- <-];
    exists x, y; do 4 eexists;
    (split; [cbn [plt calls]; rewrite <- ?app_assoc; reflexivity|]);
    split_and!; try done; by eapply first_row_labels.
Qed.

(** ** The multi-panel time-series renderer *)


Lemma add_calls_nil w : add_calls [] w = w.
Proof. destruct w as [a []]. unfold add_calls. simpl. by rewrite app_nil_r. Qed.

Lemma add_calls_app l1 l2 w : add_calls l2 (add_calls l1 w) = add_calls (l1 ++ l2) w.
Proof. unfold add_calls. simpl. by rewrite app_assoc. Qed.

Lemma embedding_on_axes basis kw a w :
  has_basis (adata w) basis → ax kw = Some a →
  embedding basis kw w
  = (Ok (if show kw then PNone else PAxes a),
     add_calls [Call_embedding basis (color kw) (groups kw) (title kw) (show kw) a
                  (legend_loc kw)] w).
Proof.
  intros Hb Ha. unfold embedding, getitem. unfold_M. rewrite Ha.
  destruct Hb as [[dt ->]|[dt Hdt]]; [done|]. rewrite Hdt.
  by destruct (obsm (adata w) !! basis).
Qed.

Lemma subplot_axes_S f first n :
  subplot_axes f first (S n)
  = {| ax_id := first; ax_figure := f |} :: subplot_axes f (S first) n.
Proof.
  unfold subplot_axes. cbn [seq fmap list_fmap]. rewrite Nat.add_0_r. f_equal.
  rewrite <- fmap_S_seq, <- list_fmap_compose.
  apply list_fmap_ext. intros ? i ?. simpl. f_equal. lia.
Qed.

(** The lookup failure of the embedding primitive reaches the caller of
    [phate] and [trimap] as it is, before anything is drawn. *)
Lemma embedding_missing_basis basis kw w :
  obsm (adata w) !! basis = None →
  obsm (adata w) !! ("X_" +:+ basis) = None →
  embedding basis kw w = (Raise (KeyError ("X_" +:+ basis)), w).
Proof.
  intros Hb Hx. unfold embedding, getitem. unfold_M. by rewrite Hb, Hx.
Qed.

Lemma add_subplots_row f n w :
  add_subplots f n w
  = (Ok (subplot_axes f (n_axes (plt w)) n),
     {| adata := adata w;
        plt := {| n_figures := n_figures (plt w); n_axes := n_axes (plt w) + n;
                  gcf := gcf (plt w);
                  gca := match n with
                         | O => gca (plt w)
                         | S n' => Some {| ax_id := n_axes (plt w) + n'; ax_figure := f |}
                         end;
                  calls := calls (plt w)
                           ++ (Call_add_axes <$> subplot_axes f (n_axes (plt w)) n) |} |}).
Proof.
  revert w. induction n as [|n IH]; intros w.
  - simpl. unfold_M. destruct w as [a []]. simpl.
    by rewrite Nat.add_0_r, app_nil_r.
  - cbn [add_subplots]. unfold mbind at 1, M_bind at 1. unfold new_axes at 1. unfold_M.
    rewrite IH. cbn [adata plt n_figures n_axes gcf gca calls].
    rewrite subplot_axes_S, fmap_cons, <- app_assoc. cbn [app].
    replace (S (n_axes (plt w)) + n) with (n_axes (plt w) + S n) by lia.
    destruct n as [|n']; [by rewrite Nat.add_0_r|].
    by replace (S (n_axes (plt w)) + n') with (n_axes (plt w) + S n') by lia.
Qed.

Lemma harmony_panels_run tp_name axs tps i w :
  has_basis (adata w) "harmony" →
  i + length tps ≤ length axs →
  for_each (enumerate_from i tps) (harmony_panel tp_name (PAxesArr axs)) w
  = (Ok tt, add_calls (panels_calls tp_name tps (drop i axs)) w).
Proof.
  revert i w. induction tps as [|tp tps IH]; intros i w Hb Hlen.
  - simpl. unfold panels_calls. simpl. by rewrite add_calls_nil.
  - simpl in Hlen.
    destruct (lookup_lt_is_Some_2 axs i) as [a Ha]; [lia|].
    cbn [enumerate_from for_each]. unfold mbind at 1, M_bind at 1.
    assert (harmony_panel tp_name (PAxesArr axs) (i, tp) w
            = (Ok tt, add_calls (panel_calls tp_name tp a) w)) as ->.
    { unfold harmony_panel, axes_getitem. rewrite Ha.
      unfold lift at 1. unfold mbind at 1, M_bind at 1.
      unfold mbind at 1, M_bind at 1.
      rewrite (embedding_on_axes _ _ a) by done. cbn [show color groups title legend_loc].
      unfold set_axis_off, log. unfold_M. cbn [plt adata add_calls n_figures n_axes gcf gca calls].
      unfold panel_calls. by rewrite <- app_assoc. }
    rewrite IH by (done || lia). rewrite add_calls_app.
    by rewrite (drop_S _ _ _ Ha).
Qed.

Lemma subplot_axes_length f first n : length (subplot_axes f first n) = n.
Proof. unfold subplot_axes. by rewrite length_fmap, length_seq. Qed.

Lemma plt_subplots_row_several n w :
  2 ≤ n →
  ∃ w1,
    plt_subplots_row n w
    = (Ok (n_figures (plt w), PAxesArr (subplot_axes (n_figures (plt w)) (n_axes (plt w)) n)), w1) ∧
    adata w1 = adata w ∧
    calls (plt w1)
    = calls (plt w) ++ [Call_figure (n_figures (plt w)) None]
      ++ (Call_add_axes <$> subplot_axes (n_figures (plt w)) (n_axes (plt w)) n).
Proof.
  intros Hn. destruct n as [|[|n]]; [lia..|].
  unfold plt_subplots_row. unfold mbind at 1, M_bind at 1. unfold plt_figure at 1. unfold_M.
  rewrite add_subplots_row. cbn [adata plt n_figures n_axes gcf gca calls].
  rewrite !subplot_axes_S. eexists. split; [reflexivity|].
  cbn [adata plt calls]. split; [done|]. by rewrite <- app_assoc.
Qed.

(** With two or more time points (and the harmony basis in place) the
    renderer succeeds: one subplot per distinct value, in first-seen
    order, each panel drawn for its value's rows without legend and with
    the axis decorations removed. *)
Lemma harmony_timeseries_panels show return_fig kw w tp_name col :
  uns (adata w) !! "harmony_timepoint_var" = Some (UStr tp_name) →
  obs (adata w) !! tp_name = Some col →
  has_basis (adata w) "harmony" →
  2 ≤ length (pd_unique col) →
  let tps := pd_unique col in
  let fig := n_figures (plt w) in
  let axs := subplot_axes fig (n_axes (plt w)) (length tps) in
  ∃ w',
    harmony_timeseries show return_fig kw w
    = (Ok (display_contract return_fig show (PFigure fig) (PAxesArr axs)), w') ∧
    adata w' = adata w ∧
    calls (plt w')
    = calls (plt w) ++ [Call_figure fig None] ++ (Call_add_axes <$> axs)
      ++ panels_calls tp_name tps axs.
Proof.
  intros Hu Ho Hb Hn tps fig axs.
  destruct (plt_subplots_row_several (length tps) w Hn) as (w1 & Hsub & Ha1 & Hc1).
  unfold harmony_timeseries, getitem.
  unfold mbind at 1, M_bind at 1, get_adata at 1.
  unfold mbind at 1, M_bind at 1, lift at 1. rewrite Hu.
  unfold mbind at 1, M_bind at 1, lift at 1. rewrite Ho.
  unfold mbind at 1, M_bind at 1. fold tps. rewrite Hsub.
  unfold mbind at 1, M_bind at 1. unfold enumerate.
  rewrite harmony_panels_run; [|by rewrite Ha1|by rewrite subplot_axes_length].
  rewrite drop_0. fold fig axs.
  eexists. split.
  - unfold display_contract. destruct return_fig, show; reflexivity.
  - cbn [adata plt calls add_calls]. split; [done|].
    rewrite Hc1. fold fig axs. by rewrite <- !app_assoc.
Qed.

(** C10: with exactly one distinct time point the renderer fails: the
    single subplot comes back as a bare Axes object, indexing it raises,
    and no panel is rendered (the figure and its one axes are all that
    was created). *)
Theorem harmony_single_timepoint_fails show return_fig kw w tp_name col :
  uns (adata w) !! "harmony_timepoint_var" = Some (UStr tp_name) →
  obs (adata w) !! tp_name = Some col →
  length (pd_unique col) = 1 →
  ∃ w',
    harmony_timeseries show return_fig kw w
    = (Raise (TypeError "'Axes' object is not subscriptable"), w') ∧
    calls (plt w')
    = calls (plt w) ++
      [Call_figure (n_figures (plt w)) None;
       Call_add_axes {| ax_id := n_axes (plt w); ax_figure := n_figures (plt w) |}].
Proof.
  intros Hu Ho Hn.
  unfold harmony_timeseries, getitem. unfold_M. rewrite Hu, Ho.
  destruct (pd_unique col) as [|tp [|]]; simplify_eq/=.
  unfold plt_subplots_row. unfold_M. simpl.
  eexists. split; [reflexivity|]. simpl. by rewrite <- app_assoc.
Qed.

(** ** Distinct values in first-seen order *)

Lemma StronglySorted_on_elements {A} (R1 R2 : relation A) l :
  (∀ x y, x ∈ l → y ∈ l → R1 x y → R2 x y) →
  StronglySorted R1 l → StronglySorted R2 l.
Proof.
  intros HR Hs. induction Hs as [|x l Hs IH Hx]; constructor.
  - apply IH. intros y z Hy Hz. apply HR; by apply elem_of_cons; right.
  - apply Forall_forall. intros y Hy. apply HR.
    + by apply elem_of_cons; left.
    + by apply elem_of_cons; right.
    + by eapply Forall_forall in Hx.
Qed.

Section UniqueFrom.
Context {A : Type} `{EqDecision A}.
Implicit Types (x : A) (l seen : list A).

Lemma elem_of_unique_from seen l x :
  x ∈ unique_from seen l ↔ x ∈ l ∧ x ∉ seen.
Proof.
  revert seen. induction l as [|y l IH]; intros seen; simpl.
  - rewrite elem_of_nil. tauto.
  - case_decide as Hy.
    + rewrite IH, elem_of_cons. split; [tauto|].
      intros [[->|?] ?]; tauto.
    + rewrite !elem_of_cons, IH, elem_of_cons.
      destruct (decide (x = y)) as [->|]; tauto.
Qed.

Lemma unique_from_NoDup seen l : NoDup (unique_from seen l).
Proof.
  revert seen. induction l as [|y l IH]; intros seen; simpl; [constructor|].
  case_decide; [done|]. constructor; [|done].
  rewrite elem_of_unique_from, elem_of_cons. tauto.
Qed.

Lemma unique_from_first_seen seen l :
  StronglySorted (λ x y, first_index x l < first_index y l) (unique_from seen l).
Proof.
  revert seen. induction l as [|y l IH]; intros seen; simpl; [constructor|].
  assert (Hshift : ∀ seen', y ∈ seen' →
    StronglySorted (λ x z, first_index x (y :: l) < first_index z (y :: l))
      (unique_from seen' l)).
  { intros seen' Hy.
    eapply StronglySorted_on_elements; [|apply (IH seen')].
    intros x z [_ Hx]%elem_of_unique_from [_ Hz]%elem_of_unique_from Hlt. simpl.
    repeat case_decide; simplify_eq; try done. lia. }
  case_decide as Hy; [by apply Hshift|].
  constructor; [apply Hshift; by apply elem_of_cons; left|].
  apply Forall_forall. intros z [_ Hz]%elem_of_unique_from. simpl.
  rewrite decide_True by done. case_decide; simplify_eq; [|lia].
  exfalso. apply Hz. by apply elem_of_cons; left.
Qed.
End UniqueFrom.

(** [Series.unique()] yields every value of the column once, ordered by
    first appearance. *)
Lemma pd_unique_first_seen col :
  NoDup (pd_unique col) ∧
  (∀ x, x ∈ pd_unique col ↔ x ∈ elems col) ∧
  StronglySorted (λ x y, first_index x (elems col) < first_index y (elems col))
    (pd_unique col).
Proof.
  unfold pd_unique. split_and!.
  - apply unique_from_NoDup.
  - intros x. rewrite elem_of_unique_from, elem_of_nil. tauto.
  - apply unique_from_first_seen.
Qed.

(** ** The display contract *)



(** ** The trajectory delegator *)

Lemma setitem_uns_Ok key v w u w' :
  setitem_uns key v w = (Ok u, w') →
  obsm (adata w') = obsm (adata w) ∧ obs (adata w') = obs (adata w) ∧
  uns (adata w') = <[key := v]> (uns (adata w)).
Proof. unfold setitem_uns. by intros [= <- <-]. Qed.

(** C9: a successful call of [wishbone_marker_trajectory] stores the three
    tables it received under [trunk_wishbone], [branch1_wishbone] and
    [branch2_wishbone] in the container's auxiliary mapping; every other
    key keeps its value, no key disappears, and the embeddings and the
    observation attributes are untouched. *)
Theorem wishbone_writes_three_tables lib markers no_bins smoothing_factor
    min_delta show_variance figsize return_fig show save ax w r w' :
  wishbone_marker_trajectory mpl lib markers no_bins smoothing_factor min_delta
    show_variance figsize return_fig show save ax w = (Ok r, w') →
  obsm (adata w') = obsm (adata w) ∧
  obs (adata w') = obs (adata w) ∧
  (∃ wb fig0 ax0 ret_values fig axs trunk branch1 branch2,
     plot_marker_trajectory lib wb markers show_variance no_bins
       smoothing_factor min_delta fig0 ax0 = Ok (ret_values, fig, axs) ∧
     ret_values !! "Trunk" = Some trunk ∧
     ret_values !! "Branch1" = Some branch1 ∧
     ret_values !! "Branch2" = Some branch2 ∧
     uns (adata w')
     = <["branch2_wishbone" := UFrame branch2]>
         (<["branch1_wishbone" := UFrame branch1]>
            (<["trunk_wishbone" := UFrame trunk]> (uns (adata w))))) ∧
  dom (uns (adata w'))
  = dom (uns (adata w)) ∪ {["trunk_wishbone"; "branch1_wishbone"; "branch2_wishbone"]} ∧
  (∀ key, key ≠ "trunk_wishbone" → key ≠ "branch1_wishbone" →
          key ≠ "branch2_wishbone" →
          uns (adata w') !! key = uns (adata w) !! key) ∧
  (∀ key, is_Some (uns (adata w) !! key) → is_Some (uns (adata w') !! key)).
Proof.
  intros H.
  assert (obsm (adata w') = obsm (adata w) ∧ obs (adata w') = obs (adata w) ∧
    ∃ wb fig0 ax0 ret_values fig axs trunk branch1 branch2,
      plot_marker_trajectory lib wb markers show_variance no_bins
        smoothing_factor min_delta fig0 ax0 = Ok (ret_values, fig, axs) ∧
      ret_values !! "Trunk" = Some trunk ∧
      ret_values !! "Branch1" = Some branch1 ∧
      ret_values !! "Branch2" = Some branch2 ∧
      uns (adata w')
      = <["branch2_wishbone" := UFrame branch2]>
          (<["branch1_wishbone" := UFrame branch1]>
             (<["trunk_wishbone" := UFrame trunk]> (uns (adata w)))))
    as (Hobsm & Hobs & Hex).
  { unfold wishbone_marker_trajectory, getitem in H. unfold_M.
    step_M; (split; [done|]); (split; [done|]); by do 9 eexists. }
  split; [done|]. split; [done|]. split; [done|].
  destruct Hex as (_ & _ & _ & _ & _ & _ & trunk & branch1 & branch2 & _ & _ & _ & _ & ->).
  split_and!.
  - rewrite !dom_insert_L. apply set_eq. intros key.
    rewrite !elem_of_union, !elem_of_singleton. tauto.
  - intros key H1 H2 H3. by rewrite !lookup_insert_ne.
  - intros key Hk. rewrite !lookup_insert. repeat case_decide; eauto.
Qed.

End Properties.

(** ** The specification's scenarios and concrete instances *)

(** Five rows with groups A, B, A, C, B: codes 0, 1, 0, 2, 1; ticks 0, 1, 2
    labelled A, B, C. *)
Example sam_group_scenario :
  ∃ w', sam sample_matplotlib (ProjKey "X_umap") (Some (VStr "group")) "Spectral_r" 0%Q "k" None
          true 10%Q [] sample_world
        = (Ok {| ax_id := 0; ax_figure := 0 |}, w') ∧
        drop 2 (calls (plt w'))
        = [Call_convert_annotations ["A"; "B"; "A"; "C"; "B"];
           Call_scatter {| ax_id := 0; ax_figure := 0 |} [0; 1; 2; 3; 4]%Q
             [0; 2; 1; 3; 1 # 2]%Q (Some (VArr (IntArr [0; 1; 0; 2; 1]%Z)))
             (Some "Spectral_r") 10%Q 0%Q "k" [];
           Call_colorbar 3 {| ax_id := 0; ax_figure := 0 |} (Some [0; 1; 2]%Z)
             {| ax_id := 1; ax_figure := 0 |};
           Call_set_yticklabels {| ax_id := 1; ax_figure := 0 |} ["A"; "B"; "C"]].
Proof. eexists. split; reflexivity. Qed.

(** Without a colour the points are drawn as they are, on a new axes. *)
Example sam_plain_scatter :
  ∃ w', sam sample_matplotlib (ProjKey "X_umap") None "Spectral_r" 0%Q "k" None true 10%Q []
          sample_world
        = (Ok {| ax_id := 0; ax_figure := 0 |}, w') ∧
        calls (plt w')
        = [Call_figure 0 None; Call_add_axes {| ax_id := 0; ax_figure := 0 |};
           Call_scatter {| ax_id := 0; ax_figure := 0 |} [0; 1; 2; 3; 4]%Q
             [0; 2; 1; 3; 1 # 2]%Q None None 10%Q 0%Q "k" []].
Proof. eexists. split; reflexivity. Qed.

(** Time points first seen in the order t1, t2, t0 give three panels in
    that order. *)
Example harmony_three_timepoints :
  pd_unique (StrArr ["t1"; "t2"; "t1"; "t0"; "t2"]) = [EStr "t1"; EStr "t2"; EStr "t0"] ∧
  ∃ w', harmony_timeseries false false [] sample_world
        = (Ok (PAxesArr (subplot_axes 0 0 3)), w') ∧
        filter (λ ev, bool_decide (is_embedding ev = true)) (calls (plt w'))
        = [Call_embedding "harmony" (Some "tp") (Some (EStr "t1")) (Some (EStr "t1"))
             false {| ax_id := 0; ax_figure := 0 |} (Some "none");
           Call_embedding "harmony" (Some "tp") (Some (EStr "t2")) (Some (EStr "t2"))
             false {| ax_id := 1; ax_figure := 0 |} (Some "none");
           Call_embedding "harmony" (Some "tp") (Some (EStr "t0")) (Some (EStr "t0"))
             false {| ax_id := 2; ax_figure := 0 |} (Some "none")].
Proof.
  split; [reflexivity|].
  exists (harmony_timeseries false false [] sample_world).2.
  split; vm_compute; reflexivity.
Qed.

(** C5 fails on a container with a single time point: the one subplot is
    allocated, but the call raises before any panel is rendered. *)
Theorem harmony_single_timepoint_sample :
  pd_unique (StrArr ["t0"; "t0"; "t0"; "t0"; "t0"]) = [EStr "t0"] ∧
  ∃ w', harmony_timeseries false false [] single_timepoint_world
        = (Raise (TypeError "'Axes' object is not subscriptable"), w') ∧
        calls (plt w')
        = [Call_figure 0 None; Call_add_axes {| ax_id := 0; ax_figure := 0 |}].
Proof.
  split; [reflexivity|].
  exists (harmony_timeseries false false [] single_timepoint_world).2.
  split; vm_compute; reflexivity.
Qed.

(** The claim of C3 as stated fails: the error that reaches the caller is
    not the container's lookup failure. *)
Lemma sam_missing_projection_not_keyerror :
  obsm (adata sample_world) !! "X_tsne" = None ∧
  ∀ key,
    (sam sample_matplotlib (ProjKey "X_tsne") None "Spectral_r" 0%Q "k" None true 10%Q [] sample_world).1
    ≠ Raise (KeyError key).
Proof.
  split; [reflexivity|]. intros key. vm_compute. discriminate.
Qed.


Lemma sam_colorbar_ticks_and_labels_witness :
  ∃ r w',
    sam sample_matplotlib (ProjKey "X_umap") (Some (VStr "group")) "Spectral_r"
      0%Q "k" None true 10%Q [] sample_world = (Ok r, w') ∧
    ∃ x y m cbar_ax ticks ticklabels,
      calls (plt w') = calls (plt sample_world) ++ axes_calls None sample_world ++
        [Call_convert_annotations ["A"; "B"; "A"; "C"; "B"];
         Call_scatter (axes_used None sample_world) x y
           (Some (VArr (IntArr (convert_annotations ["A"; "B"; "A"; "C"; "B"]))))
           (Some "Spectral_r") 10%Q 0%Q "k" []]
        ++ gcf_calls None sample_world ++
        [Call_colorbar m (axes_used None sample_world) (Some ticks) cbar_ax;
         Call_set_yticklabels cbar_ax ticklabels] ∧
      NoDup ticks ∧ StronglySorted Z.lt ticks ∧
      (∀ z, z ∈ ticks ↔ z ∈ convert_annotations ["A"; "B"; "A"; "C"; "B"]) ∧
      Forall2 (λ code label, ∃ k,
                 convert_annotations ["A"; "B"; "A"; "C"; "B"] !! k = Some code ∧
                 (∀ j, j < k →
                       convert_annotations ["A"; "B"; "A"; "C"; "B"] !! j ≠ Some code) ∧
                 ["A"; "B"; "A"; "C"; "B"] !! k = Some label) ticks ticklabels.
Proof.
  exists {| ax_id := 0; ax_figure := 0 |},
    (sam sample_matplotlib (ProjKey "X_umap") (Some (VStr "group")) "Spectral_r"
       0%Q "k" None true 10%Q [] sample_world).2.
  split; [vm_compute; reflexivity|].
  apply (sam_colorbar_ticks_and_labels sample_matplotlib (ProjKey "X_umap")
           (VStr "group") ["A"; "B"; "A"; "C"; "B"] "Spectral_r" 0%Q "k" None 10%Q
           [] sample_world {| ax_id := 0; ax_figure := 0 |}).
  - reflexivity.
  - vm_compute; reflexivity.
Defined.

Lemma sam_missing_projection_wrapped_witness :
  sam sample_matplotlib (ProjKey "X_tsne") (Some (VStr "group")) "Spectral_r" 0%Q "k" None true 10%Q
    [] sample_world
  = (Raise (Chained (ValueError projection_msg) (KeyError "X_tsne")), sample_world).
Proof. apply sam_missing_projection_wrapped. reflexivity. Defined.

Lemma sam_color_lookup_fallback_witness :
  obs (adata sample_world) !! "red" = None ∧
  ∃ x y w',
    column 0 sample_points = Ok x ∧ column 1 sample_points = Ok y ∧
    sam sample_matplotlib (ProjKey "X_umap") (Some (VStr "red")) "Spectral_r" 0%Q
      "k" None true 10%Q [] sample_world
    = (match scatter_error sample_matplotlib x y (Some (VStr "red"))
               (Some "Spectral_r") 10%Q 0%Q "k" [] with
       | None => Ok (axes_used None sample_world)
       | Some e => Raise e
       end, w') ∧
    calls (plt w') = calls (plt sample_world) ++ axes_calls None sample_world ++
      [Call_scatter (axes_used None sample_world) x y (Some (VStr "red"))
         (Some "Spectral_r") 10%Q 0%Q "k" []].
Proof.
  split; [reflexivity|].
  apply (proj2 (sam_color_lookup_fallback sample_matplotlib (ProjKey "X_umap")
                  "red" "Spectral_r" 0%Q "k" None true 10%Q [] sample_world
                  eq_refl) sample_points).
  - reflexivity.
  - simpl. lia.
  - discriminate.
Defined.

Lemma sam_constant_color_no_colorbar_witness :
  ∃ new,
    calls (plt (sam sample_matplotlib (ProjKey "X_umap") (Some (VTuple [EFloat 1; EFloat 0; EFloat 0]))
                  "Spectral_r" 0%Q "k" None true 10%Q [] sample_world).2)
    = calls (plt sample_world) ++ new ∧
    Forall (λ ev, is_colorbar ev = false) new.
Proof.
  apply (sam_constant_color_no_colorbar sample_matplotlib (ProjKey "X_umap")
           (VTuple [EFloat 1; EFloat 0; EFloat 0]) "Spectral_r" 0%Q "k" None true
           10%Q [] sample_world).
  reflexivity.
Defined.

Lemma sam_numeric_passthrough_witness :
  ∃ x y rest,
    column 0 sample_points = Ok x ∧ column 1 sample_points = Ok y ∧
    calls (plt (sam sample_matplotlib (ProjKey "X_umap") (Some (VStr "score"))
                  "Spectral_r" 0%Q "k" None true 10%Q [] sample_world).2)
    = calls (plt sample_world) ++ axes_calls None sample_world ++
      [Call_scatter (axes_used None sample_world) x y
         (Some (VArr (FloatArr [1 # 2; 3; 1 # 4; 2; 0]%Q))) (Some "Spectral_r")
         10%Q 0%Q "k" []] ++ rest ∧
    Forall (λ ev, is_scatter ev = false ∧ is_convert_annotations ev = false) rest.
Proof.
  apply (proj2 (sam_numeric_passthrough sample_matplotlib (ProjKey "X_umap")
                  (VStr "score") (FloatArr [1 # 2; 3; 1 # 4; 2; 0]%Q)
                  "Spectral_r" 0%Q "k" None true 10%Q [] sample_world
                  eq_refl eq_refl) sample_points).
  - reflexivity.
  - simpl. lia.
  - discriminate.
Defined.

Lemma sam_returns_axes_used_witness :
  ∃ r w',
    sam sample_matplotlib (ProjKey "X_umap") (Some (VStr "group")) "Spectral_r" 0%Q "k" None true
      10%Q [] sample_world = (Ok r, w') ∧
    r = axes_used None sample_world ∧
    ∃ rest, calls (plt w') = calls (plt sample_world) ++ axes_calls None sample_world
                             ++ rest ∧
            Exists (λ ev, scatter_axes ev = Some r) rest.
Proof.
  exists {| ax_id := 0; ax_figure := 0 |},
    (sam sample_matplotlib (ProjKey "X_umap") (Some (VStr "group")) "Spectral_r" 0%Q "k" None true
       10%Q [] sample_world).2.
  split; [vm_compute; reflexivity|].
  apply (sam_returns_axes_used sample_matplotlib (ProjKey "X_umap")
           (Some (VStr "group"))
           "Spectral_r" 0%Q "k" None true 10%Q [] sample_world).
  vm_compute; reflexivity.
Defined.

Lemma harmony_single_timepoint_fails_witness :
  ∃ w',
    harmony_timeseries true false [] single_timepoint_world
    = (Raise (TypeError "'Axes' object is not subscriptable"), w') ∧
    calls (plt w')
    = calls (plt single_timepoint_world) ++
      [Call_figure (n_figures (plt single_timepoint_world)) None;
       Call_add_axes {| ax_id := n_axes (plt single_timepoint_world);
                        ax_figure := n_figures (plt single_timepoint_world) |}].
Proof.
  apply (harmony_single_timepoint_fails true false [] single_timepoint_world "tp"
           (StrArr ["t0"; "t0"; "t0"; "t0"; "t0"])); reflexivity.
Defined.

Lemma wishbone_writes_three_tables_witness :
  ∃ r w',
    wishbone_marker_trajectory sample_matplotlib sample_wishbone ["CD34"; "GATA1"] 150 1 (1 # 10)%Q
      false None false false None None sample_world = (Ok r, w') ∧
    obsm (adata w') = obsm (adata sample_world) ∧
    obs (adata w') = obs (adata sample_world) ∧
    (∃ wb fig0 ax0 ret_values fig axs trunk branch1 branch2,
       plot_marker_trajectory sample_wishbone wb ["CD34"; "GATA1"] false 150 1
         (1 # 10)%Q fig0 ax0 = Ok (ret_values, fig, axs) ∧
       ret_values !! "Trunk" = Some trunk ∧
       ret_values !! "Branch1" = Some branch1 ∧
       ret_values !! "Branch2" = Some branch2 ∧
       uns (adata w')
       = <["branch2_wishbone" := UFrame branch2]>
           (<["branch1_wishbone" := UFrame branch1]>
              (<["trunk_wishbone" := UFrame trunk]> (uns (adata sample_world))))) ∧
    dom (uns (adata w'))
    = dom (uns (adata sample_world))
      ∪ {["trunk_wishbone"; "branch1_wishbone"; "branch2_wishbone"]} ∧
    (∀ key, key ≠ "trunk_wishbone" → key ≠ "branch1_wishbone" →
            key ≠ "branch2_wishbone" →
            uns (adata w') !! key = uns (adata sample_world) !! key) ∧
    (∀ key, is_Some (uns (adata sample_world) !! key) →
            is_Some (uns (adata w') !! key)).
Proof.
  exists (PAxes {| ax_id := 0; ax_figure := 0 |}),
    (wishbone_marker_trajectory sample_matplotlib sample_wishbone ["CD34"; "GATA1"] 150 1 (1 # 10)%Q
       false None false false None None sample_world).2.
  split; [vm_compute; reflexivity|].
  apply (wishbone_writes_three_tables sample_matplotlib sample_wishbone
           ["CD34"; "GATA1"] 150%Z 1%Z
           (1 # 10)%Q false None false false None None sample_world
           (PAxes {| ax_id := 0; ax_figure := 0 |})).
  vm_compute; reflexivity.
Defined.

(** * Further properties of the module *)

Section FurtherProperties.
Context (mpl : Matplotlib).

(** ** sam: what a call leaves behind *)

(** [sam] only reads the container, however the call ends. *)
Theorem sam_leaves_container projection c cmap lw ec axes cb s kw w :
  adata (sam mpl projection c cmap lw ec axes cb s kw w).2 = adata w.
Proof.
  unfold sam, getitem. unfold_M. step_M.
Qed.

(** As long as pyplot has a current figure or [sam] makes its own,
    [sam] opens one new figure exactly when no axes is supplied and the
    projection is found, also when the call then raises; on the caller's
    axes it opens none.  (With the caller's axes and no current figure,
    [plt.colorbar] opens one through [gcf()].) *)
Theorem sam_figure_count projection c cmap lw ec axes cb s kw w :
  axes = None ∨ is_Some (gcf (plt w)) →
  n_figures (plt (sam mpl projection c cmap lw ec axes cb s kw w).2)
  = n_figures (plt w)
    + match axes, projection_array (adata w) projection with
      | None, Some _ => 1
      | _, _ => 0
      end.
Proof.
  intros Hcur.
  unfold sam, getitem, projection_array. unfold_M.
  destruct Hcur as [->|[f Hf]]; [|rewrite ?Hf]; step_M; lia.
Qed.

(** A projection named by a key under which the container stores an
    array is drawn exactly as that array passed literally. *)
Theorem sam_named_projection key dt c cmap lw ec axes cb s kw w :
  obsm (adata w) !! key = Some dt →
  sam mpl (ProjKey key) c cmap lw ec axes cb s kw w
  = sam mpl (ProjArray dt) c cmap lw ec axes cb s kw w.
Proof.
  intros Hkey. unfold sam, getitem. unfold_M. by rewrite Hkey.
Qed.

(** A colour named by an observation attribute is drawn exactly as the
    attribute's values passed as an array. *)
Theorem sam_named_color projection name col cmap lw ec axes cb s kw w :
  obs (adata w) !! name = Some col →
  sam mpl projection (Some (VStr name)) cmap lw ec axes cb s kw w
  = sam mpl projection (Some (VArr col)) cmap lw ec axes cb s kw w.
Proof.
  intros Hname. unfold sam, getitem. unfold_M. rewrite Hname.
  destruct projection as [key|dt]; [destruct (obsm (adata w) !! key)|];
    by destruct axes.
Qed.

(** ** The categorical encoding *)

Lemma string_compare_gt (x y : string) :
  String.compare x y = Gt → String.compare y x = Lt.
Proof.
  rewrite (String.compare_antisym y x). by destruct (String.compare x y).
Qed.

Lemma string_compare_trans (x y z : string) :
  String.compare x y = Lt → String.compare y z = Lt → String.compare x z = Lt.
Proof.
  intros Hxy Hyz.
  apply OrderedTypeEx.String_as_OT.cmp_lt in Hxy, Hyz.
  apply OrderedTypeEx.String_as_OT.cmp_lt.
  by eapply OrderedTypeEx.String_as_OT.lt_trans.
Qed.

Lemma string_compare_irrefl (x : string) : String.compare x x ≠ Lt.
Proof.
  assert (String.compare x x = Eq) as -> by by apply OrderedTypeEx.String_as_OT.cmp_eq.
  done.
Qed.

(** The sorted distinct labels: each label once. *)
Lemma sorted_labels_spec (labels : list string) :
  NoDup (sorted_unique String.compare labels) ∧
  ∀ s, s ∈ sorted_unique String.compare labels ↔ s ∈ labels.
Proof.
  split.
  - apply sorted_unique_NoDup.
    + apply String.compare_eq_iff.
    + apply string_compare_gt.
    + apply string_compare_trans.
    + apply string_compare_irrefl.
  - intros s. apply elem_of_sorted_unique, String.compare_eq_iff.
Qed.

Lemma first_index_NoDup {A} `{EqDecision A} (l : list A) j x :
  NoDup l → l !! j = Some x → first_index x l = j.
Proof.
  intros Hnd Hj.
  assert (Hin : x ∈ l) by (apply list_elem_of_lookup; eauto).
  eapply NoDup_lookup; [done| |done]. by apply first_index_lookup.
Qed.

Lemma take_indices_complete {A} (l : list A) ai r :
  Forall2 (λ k x, l !! k = Some x) ai r → take_indices l ai = Ok r.
Proof.
  induction 1 as [|k x ai r Hk _ IH]; simpl; [done|]. by rewrite Hk, IH.
Qed.

Lemma seq_increasing a n : StronglySorted lt (seq a n).
Proof.
  revert a. induction n as [|n IH]; intros a; simpl; constructor; [done|].
  apply Forall_forall. intros j Hj%elem_of_seq. lia.
Qed.

(** The code of a row is the rank of its label among the sorted distinct
    labels. *)
Lemma convert_annotations_lookup labels i s :
  labels !! i = Some s →
  ∃ j, convert_annotations labels !! i = Some (Z.of_nat j) ∧
       sorted_unique String.compare labels !! j = Some s.
Proof.
  intros Hi. destruct (sorted_labels_spec labels) as [Hnd Hin].
  exists (first_index s (sorted_unique String.compare labels)). split.
  - unfold convert_annotations. by rewrite list_lookup_fmap, Hi.
  - apply first_index_lookup, Hin, list_elem_of_lookup. eauto.
Qed.

(** The codes in use are the ranks 0, ..., k-1 of the k distinct labels. *)
Lemma elem_of_convert_annotations labels z :
  z ∈ convert_annotations labels ↔
  ∃ j, z = Z.of_nat j ∧ j < length (sorted_unique String.compare labels).
Proof.
  destruct (sorted_labels_spec labels) as [Hnd Hin]. split.
  - intros (i & Hi)%list_elem_of_lookup.
    assert (is_Some (labels !! i)) as [s Hs].
    { apply lookup_lt_is_Some. rewrite <- convert_annotations_length.
      by eapply lookup_lt_Some. }
    destruct (convert_annotations_lookup _ _ _ Hs) as (j & Hj & Hx).
    exists j. split; [congruence|]. by eapply lookup_lt_Some.
  - intros (j & -> & Hj).
    apply lookup_lt_is_Some in Hj as [s Hs].
    assert (s ∈ labels) as (i & Hi)%list_elem_of_lookup
      by (apply Hin, list_elem_of_lookup; eauto).
    destruct (convert_annotations_lookup _ _ _ Hi) as (j' & Hj' & Hx).
    assert (j' = j) as -> by (eapply NoDup_lookup; eauto).
    apply list_elem_of_lookup. eauto.
Qed.

(** [np.unique] of the codes with [return_index]: the ticks are
    0, ..., k-1 and the rows picked for the labels carry the sorted
    distinct labels. *)
Lemma categorical_ticks_and_labels labels ui ai :
  np_unique_index (convert_annotations labels) = (ui, ai) →
  ui = Z.of_nat <$> seq 0 (length (sorted_unique String.compare labels)) ∧
  take_indices labels ai = Ok (sorted_unique String.compare labels).
Proof.
  intros Hu.
  destruct (np_unique_index_spec _ _ _ Hu) as (Hnd & Hsorted & Hin & Hfirst).
  destruct (sorted_labels_spec labels) as [Hndx Hinx].
  set (x := sorted_unique String.compare labels) in *.
  assert (Hui : ui = Z.of_nat <$> seq 0 (length x)).
  { eapply (StronglySorted_unique_strong Z.lt); [..|done| |].
    - intros; lia.
    - eapply StronglySorted_fmap; [|apply seq_increasing]. intros; lia.
    - apply NoDup_Permutation; [done| |].
      + apply NoDup_fmap; [intros ?? ?; lia|apply NoDup_seq].
      + intros z. rewrite Hin, elem_of_convert_annotations. fold x.
        rewrite list_elem_of_fmap. setoid_rewrite elem_of_seq.
        split; intros (j & ? & ?); exists j; split; (done || lia). }
  split; [done|].
  apply take_indices_complete.
  rewrite Hui in Hfirst. clear -Hfirst Hndx.
  apply Forall2_fmap_l in Hfirst.
  apply Forall2_same_length_lookup_2.
  - apply Forall2_length in Hfirst. by rewrite length_seq in Hfirst.
  - intros j k s Hk Hs.
    eapply Forall2_lookup_lr in Hfirst as [Hcode _];
      [| apply lookup_seq; split; [reflexivity|by eapply lookup_lt_Some] | done].
    simpl in Hcode.
    assert (is_Some (labels !! k)) as [s' Hs'].
    { apply lookup_lt_is_Some. rewrite <- convert_annotations_length.
      by eapply lookup_lt_Some. }
    destruct (convert_annotations_lookup _ _ _ Hs') as (j' & Hj' & Hx).
    assert (j' = j) as -> by (rewrite Hj' in Hcode; simplify_eq; lia).
    fold x in Hx. congruence.
Qed.

(** ** sam: the three colour branches in full *)

(** For a string-typed colour array, a call of [sam] that returns has
    drawn the codes and, with the colorbar option, a colorbar with one
    tick per distinct category, at 0, ..., k-1, labelled with the
    categories in sorted order (the label of the first row of each code
    is the category of that rank); without the option nothing but the
    scatter is drawn. *)
Theorem sam_categorical_trace projection c labels cmap lw ec axes cb s kw w r w' :
  resolved_color (adata w) c = VArr (StrArr labels) →
  sam mpl projection (Some c) cmap lw ec axes cb s kw w = (Ok r, w') →
  ∃ x y m cbar_ax,
    calls (plt w') = calls (plt w) ++ axes_calls axes w ++
      [Call_convert_annotations labels;
       Call_scatter (axes_used axes w) x y
         (Some (VArr (IntArr (convert_annotations labels)))) (Some cmap) s lw ec kw]
      ++ (if cb then
            gcf_calls axes w ++
            [Call_colorbar m (axes_used axes w)
               (Some (Z.of_nat <$> seq 0 (length (sorted_unique String.compare labels))))
               cbar_ax;
             Call_set_yticklabels cbar_ax (sorted_unique String.compare labels)]
          else []).
Proof.
  intros Hc.
  destruct (np_unique_index (convert_annotations labels)) as [ui ai] eqn:Hu.
  destruct (categorical_ticks_and_labels _ _ _ Hu) as [Hui Htl].
  unfold sam, getitem, resolved_color, axes_used, axes_calls, gcf_calls in *.
  unfold_M.
  assert ((∃ c0, getitem0 (VArr (StrArr labels)) = Ok c0 ∧ is_str c0 = true)
          ∨ (∃ e, getitem0 (VArr (StrArr labels)) = Raise e)) as Hfirst_entry.
  { destruct labels; simpl; eauto. }
  destruct c as [name| | |arr];
    [destruct (obs (adata w) !! name) eqn:Hn|..]; simplify_eq;
    (destruct projection as [key|dt]; [destruct (obsm (adata w) !! key)|];
     [..|by intros [=]|]);
    destruct axes as [axs|]; cbn [adata plt calls n_axes n_figures gcf gca];
    (destruct Hfirst_entry as [(c0 & -> & ->)|[e ->]]; [|by intros [=]]);
    cbn [is_ndarray andb]; rewrite Hu;
    (destruct (column 0 _) as [x|]; [|by intros [=]]);
    (destruct (column 1 _) as [y|]; [|by intros [=]]);
    cbn [adata plt calls n_axes n_figures gcf gca];
    (destruct (scatter_error mpl x y _ _ _ _ _ _); [by intros [=]|]);
    (destruct cb;
     [try destruct (gcf (plt w));
      cbn [adata plt calls n_axes n_figures gcf gca]; rewrite Htl;
      intros [= <- <-]; exists x, y; do 2 eexists
     |intros [= <- <-]; exists x, y, 0, {| ax_id := 0; ax_figure := 0 |}]);
    cbn [plt calls]; rewrite <- ?app_assoc; reflexivity.
Qed.

(** For a numeric colour array, a call of [sam] that returns has made
    one scatter call, with the array itself, and drawn a colorbar
    exactly when requested, without ticks of its own; tick labels are
    never set. *)
Theorem sam_numeric_trace projection c arr cmap lw ec axes cb s kw w r w' :
  resolved_color (adata w) c = VArr arr →
  is_numeric arr = true →
  sam mpl projection (Some c) cmap lw ec axes cb s kw w = (Ok r, w') →
  ∃ x y m cbar_ax,
    calls (plt w') = calls (plt w) ++ axes_calls axes w ++
      [Call_scatter (axes_used axes w) x y (Some (VArr arr)) (Some cmap) s lw ec kw]
      ++ (if cb then
            gcf_calls axes w ++ [Call_colorbar m (axes_used axes w) None cbar_ax]
          else []).
Proof.
  intros Hc Hnum.
  unfold sam, getitem, resolved_color, axes_used, axes_calls, gcf_calls in *.
  unfold_M.
  assert ((∃ c0, getitem0 (VArr arr) = Ok c0 ∧ is_str c0 = false)
          ∨ (∃ e, getitem0 (VArr arr) = Raise e)) as Hfirst_entry.
  { destruct arr as [l|l|l]; [done|..]; destruct l; simpl; eauto. }
  destruct c as [name| | |arr'];
    [destruct (obs (adata w) !! name) eqn:Hn|..]; simplify_eq;
    (destruct projection as [key|dt]; [destruct (obsm (adata w) !! key)|];
     [..|by intros [=]|]);
    destruct axes as [axs|]; cbn [adata plt calls n_axes n_figures gcf gca];
    (destruct Hfirst_entry as [(c0 & -> & ->)|[e ->]]; [|by intros [=]]);
    cbn [is_ndarray andb];
    (destruct (column 0 _) as [x|]; [|by intros [=]]);
    (destruct (column 1 _) as [y|]; [|by intros [=]]);
    cbn [adata plt calls n_axes n_figures gcf gca];
    (destruct (scatter_error mpl x y _ _ _ _ _ _); [by intros [=]|]);
    (destruct cb;
     [try destruct (gcf (plt w));
      cbn [adata plt calls n_axes n_figures gcf gca];
      intros [= <- <-]; exists x, y; do 2 eexists
     |intros [= <- <-]; exists x, y, 0, {| ax_id := 0; ax_figure := 0 |}]);
    cbn [plt calls]; rewrite <- ?app_assoc; reflexivity.
Qed.

(** ** sam: how a call fails *)

(** When the colour [sam] ends up with has no first entry to inspect (an
    empty array or tuple, an empty string that names no attribute, a
    scalar), the indexing error of [c[0]] is what the caller gets; the
    axes have been obtained by then, and nothing is drawn on them. *)
Theorem sam_color_without_first_entry projection dt c e cmap lw ec axes cb s kw w :
  projection_array (adata w) projection = Some dt →
  getitem0 (resolved_color (adata w) c) = Raise e →
  ∃ w',
    sam mpl projection (Some c) cmap lw ec axes cb s kw w = (Raise e, w') ∧
    calls (plt w') = calls (plt w) ++ axes_calls axes w.
Proof.
  intros Hdt H0.
  unfold sam, getitem, projection_array, resolved_color in *. unfold_M.
  destruct projection as [key|dt']; simplify_eq; rewrite ?Hdt;
    destruct axes as [axs|]; cbn [axes_used axes_calls];
    (destruct c as [name| | |arr];
       [destruct (obs (adata w) !! name) eqn:Hn|..]);
    cbn [adata plt calls n_axes n_figures gcf gca]; rewrite ?Hn, H0;
    eexists; (split; [reflexivity|]); simpl;
    by rewrite <- ?app_assoc, ?app_nil_r.
Qed.

(** A projection with fewer than two columns makes [sam] fail with
    numpy's index error of the first column access that is out of
    bounds, before any scatter call. *)
Theorem sam_too_few_columns projection dt c cmap lw ec axes cb s kw w :
  projection_array (adata w) projection = Some dt →
  ncols dt < 2 →
  match c with
  | None => True
  | Some c' => succeeds (getitem0 (resolved_color (adata w) c'))
  end →
  (sam mpl projection c cmap lw ec axes cb s kw w).1
  = Raise (IndexError
             match ncols dt with
             | 0 => "index 0 is out of bounds for axis 1 with size 0"
             | _ => "index 1 is out of bounds for axis 1 with size 1"
             end) ∧
  ∃ new,
    calls (plt (sam mpl projection c cmap lw ec axes cb s kw w).2)
    = calls (plt w) ++ new ∧
    Forall (λ ev, is_scatter ev = false) new.
Proof.
  intros Hdt Hcols Hc.
  unfold sam, getitem, projection_array, resolved_color, succeeds, column in *.
  unfold_M.
  destruct (ncols dt) as [|[|n]] eqn:Hn; [..|lia]; step_M.
  all: repeat match goal with H : ex _ |- _ => destruct H as [c0 Hc0] end;
    simplify_eq.
  all: ltb_to_le; try lia.
  all: try (exfalso;
            match goal with
            | H : _ <$> ?l0 = _ :: _ |- _ => destruct l0; simplify_eq/=
            end; done).
  all: rewrite ?Hn; (split; [reflexivity|]); trace_split; repeat constructor.
Qed.

(** [sam] returns only if the projection is found and has its two
    columns, the colour (if any) has a first entry once resolved, and
    matplotlib accepts the scatter call it is handed. *)
Theorem sam_returns_only_if projection c cmap lw ec axes cb s kw w r w' :
  sam mpl projection c cmap lw ec axes cb s kw w = (Ok r, w') →
  ∃ dt x y,
    projection_array (adata w) projection = Some dt ∧ 2 ≤ ncols dt ∧
    column 0 dt = Ok x ∧ column 1 dt = Ok y ∧
    match c with
    | None => scatter_error mpl x y None None s lw ec kw = None
    | Some c' =>
        succeeds (getitem0 (resolved_color (adata w) c')) ∧
        scatter_error mpl x y (Some (drawn_color (resolved_color (adata w) c')))
          (Some cmap) s lw ec kw = None
    end.
Proof.
  unfold sam, getitem, projection_array, resolved_color, drawn_color, succeeds.
  unfold_M. intros H.
  step_M.
  all: match goal with
       | H0 : column 0 ?d = Ok ?x, H1 : column 1 ?d = Ok ?y |- _ =>
           exists d, x, y; (split; [done|]);
           (split; [unfold column in H1; step_M; ltb_to_le; lia|]);
           (split; [done|]); (split; [done|])
       end.
  all: try done.
  all: try (split; [by eexists|]; done).
  all: exfalso;
    match goal with
    | H : _ <$> ?l0 = _ :: _ |- _ => destruct l0; simplify_eq/=
    end; done.
Qed.

(** ** harmony_timeseries: failures and what a call leaves behind *)

(** A container without the time-point metadata, or whose metadata names
    an attribute it does not have, makes the renderer fail with the
    container's lookup error before anything is created. *)
Theorem harmony_lookup_failures show return_fig kw w :
  (uns (adata w) !! "harmony_timepoint_var" = None →
   harmony_timeseries show return_fig kw w
   = (Raise (KeyError "harmony_timepoint_var"), w)) ∧
  (∀ tp_name,
     uns (adata w) !! "harmony_timepoint_var" = Some (UStr tp_name) →
     obs (adata w) !! tp_name = None →
     harmony_timeseries show return_fig kw w = (Raise (KeyError tp_name), w)).
Proof.
  split.
  - intros Hu. unfold harmony_timeseries, getitem. unfold_M. by rewrite Hu.
  - intros tp_name Hu Ho. unfold harmony_timeseries, getitem. unfold_M.
    by rewrite Hu, Ho.
Qed.

(** What a panel, and so the whole loop, keeps: the container and the
    number of figures. *)
Lemma harmony_panel_keeps tp_name axes i_tp w :
  adata (harmony_panel tp_name axes i_tp w).2 = adata w ∧
  n_figures (plt (harmony_panel tp_name axes i_tp w).2) = n_figures (plt w).
Proof.
  destruct i_tp as [i tp].
  unfold harmony_panel, embedding, axes_getitem, getitem. unfold_M. cbn [ax show].
  step_M.
Qed.

Lemma for_each_keeps {A} (body : A → M unit) (l : list A) w :
  (∀ x w1, adata (body x w1).2 = adata w1 ∧
           n_figures (plt (body x w1).2) = n_figures (plt w1)) →
  adata (for_each l body w).2 = adata w ∧
  n_figures (plt (for_each l body w).2) = n_figures (plt w).
Proof.
  intros Hbody. revert w. induction l as [|x l IH]; intros w; [done|].
  cbn [for_each]. unfold mbind, M_bind.
  destruct (Hbody x w) as [Ha Hf]. destruct (body x w) as [[[]|e] w1]; simpl in *.
  - destruct (IH w1) as [Ha1 Hf1]. split; congruence.
  - done.
Qed.

Lemma plt_subplots_row_keeps n w :
  adata (plt_subplots_row n w).2 = adata w ∧
  n_figures (plt (plt_subplots_row n w).2) = S (n_figures (plt w)).
Proof.
  unfold plt_subplots_row. unfold mbind at 1, M_bind at 1. unfold plt_figure at 1.
  unfold_M. destruct n as [|n]; [done|].
  rewrite add_subplots_row. done.
Qed.

Lemma harmony_timeseries_keeps show return_fig kw w :
  ∃ r w',
    harmony_timeseries show return_fig kw w = (r, w') ∧
    adata w' = adata w ∧
    n_figures (plt w')
    = n_figures (plt w)
      + match uns (adata w) !! "harmony_timepoint_var" with
        | Some (UStr tp_name) =>
            match obs (adata w) !! tp_name with Some _ => 1 | None => 0 end
        | _ => 0
        end.
Proof.
  unfold harmony_timeseries, getitem.
  unfold mbind at 1, M_bind at 1, get_adata at 1.
  unfold mbind at 1, M_bind at 1, lift at 1.
  destruct (uns (adata w) !! "harmony_timepoint_var") as [[tp_name|]|];
    [|eexists _, _; (split; [reflexivity|]); split; [done|lia]..].
  unfold mbind at 1, M_bind at 1, lift at 1.
  destruct (obs (adata w) !! tp_name) as [col|];
    [|eexists _, _; (split; [reflexivity|]); split; [done|lia]].
  unfold mbind at 1, M_bind at 1.
  destruct (plt_subplots_row_keeps (length (pd_unique col)) w) as [Ha Hf].
  destruct (plt_subplots_row (length (pd_unique col)) w) as [[[fig axes]|e] w1];
    simpl in Ha, Hf;
    [|eexists _, _; (split; [reflexivity|]); split; [done|lia]].
  unfold mbind at 1, M_bind at 1.
  destruct (for_each_keeps (harmony_panel tp_name axes)
              (enumerate (pd_unique col)) w1) as [Ha1 Hf1];
    [apply harmony_panel_keeps|].
  destruct (for_each _ _ w1) as [[[]|e] w2]; simpl in Ha1, Hf1.
  - destruct return_fig, show; eexists _, _; (split; [reflexivity|]);
      split; (congruence || lia).
  - eexists _, _; (split; [reflexivity|]); split; (congruence || lia).
Qed.

(** Once the metadata and the attribute are found, the renderer has
    opened exactly one figure, also when the call raises afterwards;
    before that it opens none. *)
Theorem harmony_figure_count show return_fig kw w :
  n_figures (plt (harmony_timeseries show return_fig kw w).2)
  = n_figures (plt w)
    + match uns (adata w) !! "harmony_timepoint_var" with
      | Some (UStr tp_name) =>
          match obs (adata w) !! tp_name with Some _ => 1 | None => 0 end
      | _ => 0
      end.
Proof.
  destruct (harmony_timeseries_keeps show return_fig kw w) as (r & w' & -> & _ & Hf).
  exact Hf.
Qed.

(** ** wishbone_marker_trajectory: set-up, writes and failures *)

(** When the container cannot be converted into a wishbone object, the
    error reaches the caller and nothing has happened: no figure, no
    write. *)
Theorem wishbone_conversion_failure lib markers no_bins smoothing_factor
    min_delta show_variance figsize return_fig show save ax w e :
  _anndata_to_wishbone lib (adata w) = Raise e →
  wishbone_marker_trajectory mpl lib markers no_bins smoothing_factor min_delta
    show_variance figsize return_fig show save ax w = (Raise e, w).
Proof.
  intros Hwb. unfold wishbone_marker_trajectory. unfold_M. by rewrite Hwb.
Qed.

(** After a successful conversion the trajectory object is asked to draw
    on the caller's axes and its figure, and no figure is created; when
    no axes is given, on the first axes of a new figure, sized as
    requested or, by default, [2 n] by [0.75 n] for [n] markers, provided
    matplotlib accepts that size. *)
Theorem wishbone_canvas_setup lib markers no_bins smoothing_factor
    min_delta show_variance figsize return_fig show save ax w wb :
  _anndata_to_wishbone lib (adata w) = Ok wb →
  (ax = None → figure_error mpl (requested_figsize markers figsize) = None) →
  ∃ rest,
    calls (plt (wishbone_marker_trajectory mpl lib markers no_bins smoothing_factor
                  min_delta show_variance figsize return_fig show save ax w).2)
    = calls (plt w)
      ++ match ax with
         | Some _ => []
         | None =>
             [Call_figure (n_figures (plt w))
                (Some (requested_figsize markers figsize));
              Call_add_axes (axes_used None w)]
         end
      ++ [Call_plot_marker_trajectory (wishbone_canvas ax w).1 (wishbone_canvas ax w).2]
      ++ rest.
Proof.
  intros Hwb Hsize.
  unfold wishbone_marker_trajectory, getitem, wishbone_canvas, requested_figsize,
    default_figsize, axes_used in *. unfold_M. rewrite Hwb.
  destruct ax as [a|]; [clear Hsize|specialize (Hsize eq_refl)];
    destruct figsize as [[width height]|]; rewrite ?Hsize;
    step_M; rewrite <- ?app_assoc; simpl; eexists; reflexivity.
Qed.

(** A figure size that matplotlib rejects makes the call fail with
    matplotlib's error before any figure exists; nothing is drawn or
    written. *)
Theorem wishbone_figsize_rejected lib markers no_bins smoothing_factor
    min_delta show_variance figsize return_fig show save w wb e :
  _anndata_to_wishbone lib (adata w) = Ok wb →
  figure_error mpl (requested_figsize markers figsize) = Some e →
  wishbone_marker_trajectory mpl lib markers no_bins smoothing_factor min_delta
    show_variance figsize return_fig show save None w = (Raise e, w).
Proof.
  intros Hwb Hsize.
  unfold wishbone_marker_trajectory, requested_figsize, default_figsize in *.
  unfold_M. rewrite Hwb.
  destruct figsize as [[width height]|]; by rewrite Hsize.
Qed.

(** The three tables are stored one after the other, each right after it
    is read: when the trajectory object leaves one out, the call fails
    with the lookup error of that table, the tables before it are already
    in the container, and the later ones are not written. *)
Theorem wishbone_table_writes lib markers no_bins smoothing_factor
    min_delta show_variance figsize return_fig show save ax w wb ret_values fig axs :
  _anndata_to_wishbone lib (adata w) = Ok wb →
  (ax = None → figure_error mpl (requested_figsize markers figsize) = None) →
  plot_marker_trajectory lib wb markers show_variance no_bins smoothing_factor
    min_delta (wishbone_canvas ax w).1 (wishbone_canvas ax w).2
  = Ok (ret_values, fig, axs) →
  let res := wishbone_marker_trajectory mpl lib markers no_bins smoothing_factor
               min_delta show_variance figsize return_fig show save ax w in
  match ret_values !! "Trunk", ret_values !! "Branch1", ret_values !! "Branch2" with
  | None, _, _ =>
      res.1 = Raise (KeyError "Trunk") ∧ uns (adata res.2) = uns (adata w)
  | Some trunk, None, _ =>
      res.1 = Raise (KeyError "Branch1") ∧
      uns (adata res.2) = <["trunk_wishbone" := UFrame trunk]> (uns (adata w))
  | Some trunk, Some branch1, None =>
      res.1 = Raise (KeyError "Branch2") ∧
      uns (adata res.2)
      = <["branch1_wishbone" := UFrame branch1]>
          (<["trunk_wishbone" := UFrame trunk]> (uns (adata w)))
  | Some trunk, Some branch1, Some branch2 =>
      res.1 = Ok (display_contract return_fig show (PFigure fig) (PAxes axs)) ∧
      uns (adata res.2)
      = <["branch2_wishbone" := UFrame branch2]>
          (<["branch1_wishbone" := UFrame branch1]>
             (<["trunk_wishbone" := UFrame trunk]> (uns (adata w))))
  end.
Proof.
  intros Hwb Hsize Hplot res. subst res.
  unfold wishbone_marker_trajectory, getitem, wishbone_canvas, axes_used,
    display_contract, requested_figsize, default_figsize in *.
  unfold_M. rewrite Hwb.
  destruct ax as [a|]; [clear Hsize|specialize (Hsize eq_refl)];
    cbn [fst snd] in Hplot;
    destruct figsize as [[width height]|]; rewrite ?Hsize;
    cbn [adata plt calls n_axes n_figures gcf gca]; rewrite Hplot;
    destruct (ret_values !! "Trunk"), (ret_values !! "Branch1"),
      (ret_values !! "Branch2"), return_fig, show; done.
Qed.

(** However the call ends, the embeddings and the observation attributes
    are untouched and no key of the auxiliary mapping is lost. *)
Theorem wishbone_never_removes lib markers no_bins smoothing_factor
    min_delta show_variance figsize return_fig show save ax w :
  let res := wishbone_marker_trajectory mpl lib markers no_bins smoothing_factor
               min_delta show_variance figsize return_fig show save ax w in
  obsm (adata res.2) = obsm (adata w) ∧
  obs (adata res.2) = obs (adata w) ∧
  dom (uns (adata w)) ⊆ dom (uns (adata res.2)).
Proof.
  intros res. subst res.
  unfold wishbone_marker_trajectory, getitem. unfold_M.
  step_M; (split; [done|]); (split; [done|]);
    rewrite ?dom_insert_L; intros key Hkey; rewrite ?elem_of_union; tauto.
Qed.

(** A figure is opened exactly when no axes is supplied, the conversion
    succeeds and matplotlib accepts the requested size. *)
Theorem wishbone_figure_count lib markers no_bins smoothing_factor
    min_delta show_variance figsize return_fig show save ax w :
  n_figures (plt (wishbone_marker_trajectory mpl lib markers no_bins
                    smoothing_factor min_delta show_variance figsize return_fig
                    show save ax w).2)
  = n_figures (plt w)
    + match ax, _anndata_to_wishbone lib (adata w),
            figure_error mpl (requested_figsize markers figsize) with
      | None, Ok _, None => 1
      | _, _, _ => 0
      end.
Proof.
  unfold wishbone_marker_trajectory, getitem, requested_figsize, default_figsize.
  unfold_M. step_M; lia.
Qed.

(** The shared save-or-show helper is called once, last, with the
    caller's [show] and [save], when the call returns; a call that
    raises never reaches it. *)
Theorem wishbone_savefig_or_show_last lib markers no_bins smoothing_factor
    min_delta show_variance figsize return_fig show save ax w :
  let res := wishbone_marker_trajectory mpl lib markers no_bins smoothing_factor
               min_delta show_variance figsize return_fig show save ax w in
  ∃ new,
    calls (plt res.2) = calls (plt w) ++ new ∧
    match res.1 with
    | Ok _ =>
        ∃ before,
          new = before ++ [Call_savefig_or_show "wishbone_trajectory" show save] ∧
          Forall (λ ev, is_savefig_or_show ev = false) before
    | Raise _ => Forall (λ ev, is_savefig_or_show ev = false) new
    end.
Proof.
  intros res. subst res.
  unfold wishbone_marker_trajectory, getitem. unfold_M.
  step_M; trace_split; repeat constructor.
  all: match goal with
       | |- ∃ before, ?l = _ ∧ _ =>
           match l with
           | [?a; ?b] => exists [a]
           | [?a; ?b; ?c; ?d] => exists [a; b; c]
           end
       end; split; [reflexivity|repeat constructor].
Qed.

End FurtherProperties.

(** ** Concrete instances of the further properties *)

Lemma sam_named_projection_witness :
  sam sample_matplotlib (ProjKey "X_umap") (Some (VStr "group")) "Spectral_r" 0%Q "k" None true 10%Q
    [] sample_world
  = sam sample_matplotlib (ProjArray sample_points) (Some (VStr "group")) "Spectral_r" 0%Q "k" None
      true 10%Q [] sample_world.
Proof. apply sam_named_projection. reflexivity. Defined.

Lemma sam_named_color_witness :
  sam sample_matplotlib (ProjKey "X_umap") (Some (VStr "group")) "Spectral_r" 0%Q "k" None true 10%Q
    [] sample_world
  = sam sample_matplotlib (ProjKey "X_umap") (Some (VArr (StrArr ["A"; "B"; "A"; "C"; "B"])))
      "Spectral_r" 0%Q "k" None true 10%Q [] sample_world.
Proof. apply sam_named_color. reflexivity. Defined.

Lemma sam_figure_count_witness :
  n_figures (plt (sam sample_matplotlib (ProjKey "X_umap") (Some (VFloat (1 # 2)))
                    "Spectral_r" 0%Q "k" None true 10%Q [] sample_world).2)
  = n_figures (plt sample_world) + 1.
Proof.
  apply (sam_figure_count sample_matplotlib (ProjKey "X_umap")
           (Some (VFloat (1 # 2))) "Spectral_r" 0%Q "k" None true 10%Q []
           sample_world).
  by left.
Defined.

Lemma sam_categorical_trace_witness :
  ∃ r w',
    sam sample_matplotlib (ProjKey "X_umap") (Some (VStr "group")) "Spectral_r"
      0%Q "k" None true 10%Q [] sample_world = (Ok r, w') ∧
    ∃ x y m cbar_ax,
      calls (plt w') = calls (plt sample_world) ++ axes_calls None sample_world ++
        [Call_convert_annotations ["A"; "B"; "A"; "C"; "B"];
         Call_scatter (axes_used None sample_world) x y
           (Some (VArr (IntArr (convert_annotations ["A"; "B"; "A"; "C"; "B"]))))
           (Some "Spectral_r") 10%Q 0%Q "k" []]
        ++ (if true then
              gcf_calls None sample_world ++
              [Call_colorbar m (axes_used None sample_world)
                 (Some (Z.of_nat <$>
                        seq 0 (length (sorted_unique String.compare
                                         ["A"; "B"; "A"; "C"; "B"]))))
                 cbar_ax;
               Call_set_yticklabels cbar_ax
                 (sorted_unique String.compare ["A"; "B"; "A"; "C"; "B"])]
            else []).
Proof.
  exists {| ax_id := 0; ax_figure := 0 |},
    (sam sample_matplotlib (ProjKey "X_umap") (Some (VStr "group")) "Spectral_r"
       0%Q "k" None true 10%Q [] sample_world).2.
  split; [vm_compute; reflexivity|].
  apply (sam_categorical_trace sample_matplotlib (ProjKey "X_umap") (VStr "group")
           ["A"; "B"; "A"; "C"; "B"] "Spectral_r" 0%Q "k" None true 10%Q []
           sample_world {| ax_id := 0; ax_figure := 0 |}).
  - reflexivity.
  - vm_compute; reflexivity.
Defined.

Lemma sam_numeric_trace_witness :
  ∃ r w',
    sam sample_matplotlib (ProjKey "X_umap") (Some (VStr "score")) "Spectral_r"
      0%Q "k" None true 10%Q [] sample_world = (Ok r, w') ∧
    ∃ x y m cbar_ax,
      calls (plt w') = calls (plt sample_world) ++ axes_calls None sample_world ++
        [Call_scatter (axes_used None sample_world) x y
           (Some (VArr (FloatArr [1 # 2; 3; 1 # 4; 2; 0]%Q))) (Some "Spectral_r")
           10%Q 0%Q "k" []]
        ++ (if true then
              gcf_calls None sample_world ++
              [Call_colorbar m (axes_used None sample_world) None cbar_ax]
            else []).
Proof.
  exists {| ax_id := 0; ax_figure := 0 |},
    (sam sample_matplotlib (ProjKey "X_umap") (Some (VStr "score")) "Spectral_r"
       0%Q "k" None true 10%Q [] sample_world).2.
  split; [vm_compute; reflexivity|].
  apply (sam_numeric_trace sample_matplotlib (ProjKey "X_umap") (VStr "score")
           (FloatArr [1 # 2; 3; 1 # 4; 2; 0]%Q) "Spectral_r" 0%Q "k" None true 10%Q
           [] sample_world {| ax_id := 0; ax_figure := 0 |}).
  - reflexivity.
  - reflexivity.
  - vm_compute; reflexivity.
Defined.

Lemma sam_color_without_first_entry_witness :
  ∃ w',
    sam sample_matplotlib (ProjKey "X_umap") (Some (VFloat (1 # 2))) "Spectral_r" 0%Q "k" None true
      10%Q [] sample_world
    = (Raise (TypeError "'float' object is not subscriptable"), w') ∧
    calls (plt w') = calls (plt sample_world) ++ axes_calls None sample_world.
Proof.
  apply (sam_color_without_first_entry sample_matplotlib (ProjKey "X_umap")
           sample_points
           (VFloat (1 # 2))); reflexivity.
Defined.

Lemma sam_too_few_columns_witness :
  (sam sample_matplotlib (ProjArray narrow_points) None "Spectral_r" 0%Q "k" None
     true 10%Q [] sample_world).1
  = Raise (IndexError "index 1 is out of bounds for axis 1 with size 1") ∧
  ∃ new,
    calls (plt (sam sample_matplotlib (ProjArray narrow_points) None "Spectral_r"
                  0%Q "k" None true 10%Q [] sample_world).2)
    = calls (plt sample_world) ++ new ∧
    Forall (λ ev, is_scatter ev = false) new.
Proof.
  apply (sam_too_few_columns sample_matplotlib (ProjArray narrow_points)
           narrow_points None).
  - reflexivity.
  - simpl. lia.
  - exact I.
Defined.

Lemma sam_returns_only_if_witness :
  ∃ r w',
    sam sample_matplotlib (ProjKey "X_umap") (Some (VStr "group")) "Spectral_r"
      0%Q "k" None true 10%Q [] sample_world = (Ok r, w') ∧
    ∃ dt x y,
      projection_array (adata sample_world) (ProjKey "X_umap") = Some dt ∧
      2 ≤ ncols dt ∧ column 0 dt = Ok x ∧ column 1 dt = Ok y ∧
      succeeds (getitem0 (resolved_color (adata sample_world) (VStr "group"))) ∧
      scatter_error sample_matplotlib x y
        (Some (drawn_color (resolved_color (adata sample_world) (VStr "group"))))
        (Some "Spectral_r") 10%Q 0%Q "k" [] = None.
Proof.
  exists {| ax_id := 0; ax_figure := 0 |},
    (sam sample_matplotlib (ProjKey "X_umap") (Some (VStr "group")) "Spectral_r"
       0%Q "k" None true 10%Q [] sample_world).2.
  split; [vm_compute; reflexivity|].
  apply (sam_returns_only_if sample_matplotlib (ProjKey "X_umap")
           (Some (VStr "group")) "Spectral_r" 0%Q "k" None true 10%Q []
           sample_world {| ax_id := 0; ax_figure := 0 |}
           (sam sample_matplotlib (ProjKey "X_umap") (Some (VStr "group"))
              "Spectral_r" 0%Q "k" None true 10%Q [] sample_world).2).
  vm_compute; reflexivity.
Defined.

Lemma harmony_lookup_failures_witness :
  harmony_timeseries true false [] bare_world
  = (Raise (KeyError "harmony_timepoint_var"), bare_world) ∧
  harmony_timeseries true false [] dangling_world
  = (Raise (KeyError "stage"), dangling_world).
Proof.
  split.
  - apply (proj1 (harmony_lookup_failures true false [] bare_world)). reflexivity.
  - apply (proj2 (harmony_lookup_failures true false [] dangling_world) "stage");
      reflexivity.
Defined.

Lemma harmony_timeseries_panels_witness :
  ∃ w',
    harmony_timeseries false false [] sample_world
    = (Ok (display_contract false false (PFigure (n_figures (plt sample_world)))
             (PAxesArr (subplot_axes (n_figures (plt sample_world))
                          (n_axes (plt sample_world))
                          (length (pd_unique (StrArr ["t1"; "t2"; "t1"; "t0"; "t2"])))))),
       w') ∧
    adata w' = adata sample_world ∧
    calls (plt w')
    = calls (plt sample_world) ++ [Call_figure (n_figures (plt sample_world)) None]
      ++ (Call_add_axes <$>
          subplot_axes (n_figures (plt sample_world)) (n_axes (plt sample_world))
            (length (pd_unique (StrArr ["t1"; "t2"; "t1"; "t0"; "t2"]))))
      ++ panels_calls "tp" (pd_unique (StrArr ["t1"; "t2"; "t1"; "t0"; "t2"]))
           (subplot_axes (n_figures (plt sample_world)) (n_axes (plt sample_world))
              (length (pd_unique (StrArr ["t1"; "t2"; "t1"; "t0"; "t2"])))).
Proof.
  apply (harmony_timeseries_panels false false [] sample_world "tp"
           (StrArr ["t1"; "t2"; "t1"; "t0"; "t2"])).
  - reflexivity.
  - reflexivity.
  - right. by eexists.
  - simpl. lia.
Defined.

Lemma wishbone_conversion_failure_witness :
  wishbone_marker_trajectory sample_matplotlib failing_wishbone ["CD34"] 150 1 (1 # 10)%Q false None
    false true None None sample_world
  = (Raise (KeyError "trajectory"), sample_world).
Proof. apply wishbone_conversion_failure. reflexivity. Defined.

Lemma wishbone_canvas_setup_witness :
  ∃ rest,
    calls (plt (wishbone_marker_trajectory sample_matplotlib sample_wishbone
                  ["CD34"; "GATA1"] 150 1 (1 # 10)%Q false None false true None
                  None sample_world).2)
    = calls (plt sample_world)
      ++ [Call_figure (n_figures (plt sample_world))
            (Some (requested_figsize ["CD34"; "GATA1"] None));
          Call_add_axes (axes_used None sample_world)]
      ++ [Call_plot_marker_trajectory (wishbone_canvas None sample_world).1
            (wishbone_canvas None sample_world).2]
      ++ rest.
Proof.
  apply (wishbone_canvas_setup sample_matplotlib sample_wishbone ["CD34"; "GATA1"]
           150%Z 1%Z (1 # 10)%Q false None false true None None sample_world
           (adata sample_world)).
  - reflexivity.
  - reflexivity.
Defined.

Lemma wishbone_figsize_rejected_witness :
  wishbone_marker_trajectory sample_matplotlib sample_wishbone ["CD34"] 150 1
    (1 # 10)%Q false (Some (-1, 2)%Q) false true None None sample_world
  = (Raise (ValueError "figure size must be positive finite"), sample_world).
Proof.
  apply (wishbone_figsize_rejected sample_matplotlib sample_wishbone ["CD34"] 150%Z
           1%Z (1 # 10)%Q false (Some (-1, 2)%Q) false true None sample_world
           (adata sample_world)).
  - reflexivity.
  - reflexivity.
Defined.

Lemma wishbone_table_writes_witness :
  (wishbone_marker_trajectory sample_matplotlib truncated_wishbone ["CD34"] 150 1
     (1 # 10)%Q false None false true None None sample_world).1
  = Raise (KeyError "Branch1") ∧
  uns (adata (wishbone_marker_trajectory sample_matplotlib truncated_wishbone
                ["CD34"] 150 1 (1 # 10)%Q false None false true None None
                sample_world).2)
  = <["trunk_wishbone" := UFrame {| df_columns := ["CD34"]; df_values := [[1]]%Q |}]>
      (uns (adata sample_world)).
Proof.
  exact (wishbone_table_writes sample_matplotlib truncated_wishbone ["CD34"] 150%Z
           1%Z (1 # 10)%Q false None false true None None sample_world
           (adata sample_world) _ _ _ eq_refl (λ _, eq_refl) eq_refl).
Defined.
